(** * ExcelProcessor: extraction of ASHRAE 140 result tables

    A shallow embedding of [src/excel_processor.py]: the three attribute
    descriptors ([SectionType], [SetDataSources], [SetProcessingFunctions]),
    the region reader [_get_data], the region extractors and [run].

    Python objects are modelled as follows.
    - A [str] is a [string], a character being a code point below 256; the
      characters the code looks for are ASCII (the two file-name
      signatures, the labels, the separator), and among the code points
      below 256 only the ASCII letters fold onto them when case is ignored.
    - A cell of a table, a dictionary key or an attribute value is a
      [scalar]; a finite float is the rational it denotes.
    - A [dict] is an association list in insertion order, with the
      assignment [d[k] = v] replacing in place or appending.
    - An instance of [ExcelProcessor] is a record of its attributes; an
      attribute that has not been assigned yet is [None] at the level of
      the record (reading it raises [AttributeError]).
    - Methods are computations in a state-and-exception monad over that
      record.
    - pandas, the data cleanser, the float formatter and the interpreter's
      limit on the digits [int] converts are collaborators outside the
      file: they are the fields of the class [External]. *)

From Stdlib Require Import String Ascii List ZArith QArith Bool Lia DecimalString.
Import ListNotations.
Open Scope string_scope.
Open Scope Z_scope.

(* ================================================================== *)
(** ** Python values *)

Inductive scalar : Type :=
| SNone
| SBool (b : bool)
| SInt (z : Z)
| SFloat (q : Q)
| SNaN
| SStr (s : string)
| STimestamp (iso : string).

#[warnings="-register-all"]
Inductive pyval : Type :=
| VS (s : scalar)
| VTuple (items : list pyval)
| VDict (d : list (scalar * pyval)).

Definition pydict : Type := list (scalar * pyval).

Definition VNone : pyval := VS SNone.
Definition VStr (s : string) : pyval := VS (SStr s).
Definition VInt (z : Z) : pyval := VS (SInt z).

Definition Q_eq_dec (a b : Q) : {a = b} + {a <> b}.
Proof. decide equality; [apply Pos.eq_dec | apply Z.eq_dec]. Defined.

Definition scalar_eq_dec (a b : scalar) : {a = b} + {a <> b}.
Proof.
  decide equality;
    first [apply string_dec | apply Z.eq_dec | apply Q_eq_dec | apply bool_dec].
Defined.

(** Key comparison of dictionaries.  Keys are compared structurally,
    which is Python's [==] on the [str] and [int] keys the result mappings
    are built from. *)
Definition key_eqb (a b : scalar) : bool :=
  if scalar_eq_dec a b then true else false.

(* ================================================================== *)
(** ** Dictionaries in insertion order *)

Section Dict.
Context {V : Type}.

(** [d.get(k)] *)
Fixpoint dict_get (k : scalar) (d : list (scalar * V)) : option V :=
  match d with
  | [] => None
  | (k', v) :: d' => if key_eqb k k' then Some v else dict_get k d'
  end.

(** [d[k] = v]: an existing key keeps its place, a new key goes last. *)
Fixpoint dict_set (k : scalar) (v : V) (d : list (scalar * V))
  : list (scalar * V) :=
  match d with
  | [] => [(k, v)]
  | (k', v') :: d' =>
      if key_eqb k k' then (k', v) :: d' else (k', v') :: dict_set k v d'
  end.

(** [d.update(other)] *)
Definition dict_update (d other : list (scalar * V)) : list (scalar * V) :=
  fold_left (fun acc kv => dict_set (fst kv) (snd kv) acc) other d.

Definition dict_keys (d : list (scalar * V)) : list scalar := map fst d.

(** A dict literal [{k1: v1, ..., kn: vn}]. *)
Definition dict_lit (entries : list (scalar * V)) : list (scalar * V) :=
  dict_update [] entries.
End Dict.

(* ================================================================== *)
(** ** Strings and the regular expressions of the file *)

Definition newline : ascii := ascii_of_nat 10.

(** Lower case of an ASCII letter; every other character is unchanged. *)
Definition lower (c : ascii) : ascii :=
  let n := nat_of_ascii c in
  if (Nat.leb 65 n && Nat.leb n 90)%bool then ascii_of_nat (n + 32) else c.

(** Two characters that [re.IGNORECASE] identifies. *)
Definition ci_eqb (a b : ascii) : bool := Ascii.eqb (lower a) (lower b).

(** [lit] matches at the start of [s], letter case ignored. *)
Fixpoint starts_with_ci (lit s : string) : bool :=
  match lit, s with
  | EmptyString, _ => true
  | String _ _, EmptyString => false
  | String a lit', String b s' => (ci_eqb a b && starts_with_ci lit' s')%bool
  end.

(** [re.match(r'.*LIT.*', s, re.IGNORECASE)] for a literal [LIT]: the
    leading [.*] consumes any run of characters other than a newline (the
    pattern is compiled without [re.DOTALL]), [LIT] must follow, and the
    trailing [.*] matches whatever is left, possibly nothing. *)
Fixpoint re_match_dotstar_lit_ci (lit s : string) : bool :=
  (starts_with_ci lit s
   || match s with
      | EmptyString => false
      | String c s' =>
          if Ascii.eqb c newline then false else re_match_dotstar_lit_ci lit s'
      end)%bool.

(** [re.match(r'^LIT.*', s)] for a literal [LIT]: [s] starts with [LIT]. *)
Definition re_match_caret_lit (lit s : string) : bool := String.prefix lit s.

(** [s.split('/')] and the like: the pieces between occurrences of [sep]. *)
Fixpoint split_on (sep : ascii) (s : string) : list string :=
  match s with
  | EmptyString => [EmptyString]
  | String c s' =>
      if Ascii.eqb c sep then EmptyString :: split_on sep s'
      else match split_on sep s' with
           | [] => [String c EmptyString]
           | p :: ps => String c p :: ps
           end
  end.

(** [s.replace(old, '')] for a non-empty [old], scanning left to right. *)
Fixpoint drop_chars (n : nat) (s : string) : string :=
  match n, s with
  | O, _ => s
  | S _, EmptyString => EmptyString
  | S n', String _ s' => drop_chars n' s'
  end.

Fixpoint remove_all_fuel (fuel : nat) (old s : string) : string :=
  match fuel with
  | O => s
  | S fuel' =>
      match s with
      | EmptyString => EmptyString
      | String c s' =>
          if String.prefix old s
          then remove_all_fuel fuel' old (drop_chars (String.length old) s)
          else String c (remove_all_fuel fuel' old s')
      end
  end.

Definition str_replace_with_empty (old s : string) : string :=
  match old with
  | EmptyString => s
  | _ => remove_all_fuel (S (String.length s)) old s
  end.

(** [s.strip()]: the characters below 256 that [str.isspace] accepts. *)
Definition is_space (c : ascii) : bool :=
  let n := nat_of_ascii c in
  (Nat.eqb n 32 || (Nat.leb 9 n && Nat.leb n 13) || (Nat.leb 28 n && Nat.leb n 31)
   || Nat.eqb n 133 || Nat.eqb n 160)%bool.

Fixpoint lstrip (s : string) : string :=
  match s with
  | EmptyString => EmptyString
  | String c s' => if is_space c then lstrip s' else s
  end.

Fixpoint rstrip (s : string) : string :=
  match s with
  | EmptyString => EmptyString
  | String c s' =>
      match rstrip s' with
      | EmptyString => if is_space c then EmptyString else String c EmptyString
      | r => String c r
      end
  end.

Definition strip (s : string) : string := rstrip (lstrip s).

(** Decimal text of an integer, as [str] prints an [int]. *)
Definition str_of_Z (z : Z) : string := NilZero.string_of_int (Z.to_int z).

(* ================================================================== *)
(** ** Exceptions and the built-in conversions *)

Inductive exn : Type :=
| AttributeError (attr : string)
| KeyError (key : scalar)
| IndexError
| TypeError
| ValueError
| ASHRAE140ProcessingError (msg : string)
| CollaboratorError (what : string).

Definition is_digit (c : ascii) : bool :=
  let n := nat_of_ascii c in (Nat.leb 48 n && Nat.leb n 57)%bool.

Definition digit_value (c : ascii) : Z := Z.of_nat (nat_of_ascii c) - 48.

(** The digits of an [int] literal in text: decimal digits, with single
    underscores allowed between two digits. *)
Fixpoint digits_value (acc : Z) (after_digit : bool) (s : string) : option Z :=
  match s with
  | EmptyString => if after_digit then Some acc else None
  | String c s' =>
      if is_digit c then digits_value (10 * acc + digit_value c) true s'
      else if Ascii.eqb c "_"%char
           then (if after_digit then digits_value acc false s' else None)
           else None
  end.

(** The white space [int] skips around a literal: among the characters
    below 256 these are tab to carriage return, the space, U+0085 and
    U+00A0.  The separators 28 to 31, which [str.strip] removes, are not
    skipped. *)
Definition is_int_space (c : ascii) : bool :=
  let n := nat_of_ascii c in
  (Nat.eqb n 32 || (Nat.leb 9 n && Nat.leb n 13)
   || Nat.eqb n 133 || Nat.eqb n 160)%bool.

Fixpoint int_lstrip (s : string) : string :=
  match s with
  | EmptyString => EmptyString
  | String c s' => if is_int_space c then int_lstrip s' else s
  end.

Fixpoint int_rstrip (s : string) : string :=
  match s with
  | EmptyString => EmptyString
  | String c s' =>
      match int_rstrip s' with
      | EmptyString => if is_int_space c then EmptyString else String c EmptyString
      | r => String c r
      end
  end.

(** An integer literal in text: white space around it, an optional sign,
    digits. *)
Definition int_literal (s : string) : option Z :=
  match int_rstrip (int_lstrip s) with
  | String "+"%char r => digits_value 0 false r
  | String "-"%char r => option_map Z.opp (digits_value 0 false r)
  | t => digits_value 0 false t
  end.

Fixpoint count_digits (s : string) : nat :=
  match s with
  | EmptyString => O
  | String c s' => if is_digit c then S (count_digits s') else count_digits s'
  end.

(* ================================================================== *)
(** ** Tables: the part of pandas the extractors use *)

Record DataFrame : Type := {
  df_columns : list scalar;        (* column labels *)
  df_index : list Z;               (* row labels *)
  df_rows : list (list scalar)     (* cells, row by row, as [iterrows]
                                      and [iloc] hand them out *)
}.

(** A row as [iterrows] yields it: the cells under their column labels. *)
Definition Series : Type := list (scalar * scalar).

Definition iterrows (df : DataFrame) : list (Z * Series) :=
  combine (df_index df) (map (combine (df_columns df)) (df_rows df)).

(** [df.columns = labels] *)
Definition set_columns (labels : list string) (df : DataFrame) : exn + DataFrame :=
  if Nat.eqb (List.length labels) (List.length (df_columns df))
  then inr {| df_columns := map SStr labels;
              df_index := df_index df;
              df_rows := df_rows df |}
  else inl ValueError.

(** [row[label]] *)
Definition series_loc (label : string) (row : Series) : exn + scalar :=
  match dict_get (SStr label) row with
  | Some v => inr v
  | None => inl (KeyError (SStr label))
  end.

(** [row[n]] on a row whose labels are text: the n-th cell. *)
Definition series_pos (n : nat) (row : Series) : exn + scalar :=
  match nth_error row n with
  | Some (_, v) => inr v
  | None => inl IndexError
  end.

(** Positional row access of [iloc]; a negative position counts from the
    end. *)
Definition iloc_row (df : DataFrame) (i : Z) : exn + list scalar :=
  let n := Z.of_nat (List.length (df_rows df)) in
  let p := if i <? 0 then n + i else i in
  if (0 <=? p) && (p <? n)
  then match nth_error (df_rows df) (Z.to_nat p) with
       | Some r => inr r
       | None => inl IndexError
       end
  else inl IndexError.

(** [df.iloc[i, j]] *)
Definition iloc (df : DataFrame) (i j : nat) : exn + scalar :=
  match nth_error (df_rows df) i with
  | Some r => match nth_error r j with
              | Some c => inr c
              | None => inl IndexError
              end
  | None => inl IndexError
  end.

(** [series.to_dict()] *)
Definition to_dict (row : Series) : pydict :=
  dict_lit (map (fun kv => (fst kv, VS (snd kv))) row).

(** [df.iloc[i, js].to_dict()] for a list [js] of column positions. *)
Fixpoint pick {A : Type} (l : list A) (js : list nat) : option (list A) :=
  match js with
  | [] => Some []
  | j :: js' =>
      match nth_error l j, pick l js' with
      | Some x, Some xs => Some (x :: xs)
      | _, _ => None
      end
  end.

Definition iloc_row_cols_to_dict (df : DataFrame) (i : Z) (js : list nat)
  : exn + pydict :=
  match iloc_row df i with
  | inl e => inl e
  | inr r => match pick (combine (df_columns df) r) js with
             | Some s => inr (to_dict s)
             | None => inl IndexError
             end
  end.

(** [df.iloc[:, js].copy()] *)
Fixpoint pick_rows (rows : list (list scalar)) (js : list nat)
  : option (list (list scalar)) :=
  match rows with
  | [] => Some []
  | r :: rows' =>
      match pick r js, pick_rows rows' js with
      | Some r', Some rs => Some (r' :: rs)
      | _, _ => None
      end
  end.

Definition iloc_cols (df : DataFrame) (js : list nat) : exn + DataFrame :=
  match pick (df_columns df) js, pick_rows (df_rows df) js with
  | Some cs, Some rs =>
      inr {| df_columns := cs; df_index := df_index df; df_rows := rs |}
  | _, _ => inl IndexError
  end.

(** [df[label] = values]: the column is overwritten when it exists and
    added last otherwise. *)
Definition assign_column (label : string) (values : list scalar) (df : DataFrame)
  : DataFrame :=
  {| df_columns := dict_keys (dict_set (SStr label) SNone
                                (combine (df_columns df) (df_columns df)));
     df_index := df_index df;
     df_rows := map (fun rv => map snd (dict_set (SStr label) (snd rv)
                                           (combine (df_columns df) (fst rv))))
                    (combine (df_rows df) values) |}.

(** [df[label] = value] for a constant [value]. *)
Definition assign_constant (label : string) (value : scalar) (df : DataFrame)
  : DataFrame :=
  assign_column label (repeat value (List.length (df_rows df))) df.

(** [df[label]]: the cells of a column. *)
Definition column_values (label : string) (df : DataFrame) : exn + list scalar :=
  if existsb (key_eqb (SStr label)) (df_columns df)
  then inr (map (fun r => match dict_get (SStr label) (combine (df_columns df) r) with
                          | Some v => v
                          | None => SNaN
                          end) (df_rows df))
  else inl (KeyError (SStr label)).

(** [df.drop(columns=[label])] *)
Definition drop_column (label : string) (df : DataFrame) : exn + DataFrame :=
  if existsb (key_eqb (SStr label)) (df_columns df)
  then inr {| df_columns := filter (fun c => negb (key_eqb (SStr label) c))
                                   (df_columns df);
              df_index := df_index df;
              df_rows := map (fun r => map snd
                                 (filter (fun kv => negb (key_eqb (SStr label) (fst kv)))
                                         (combine (df_columns df) r)))
                             (df_rows df) |}
  else inl (KeyError (SStr label)).

(** [column.str.split(pat=sep, expand=True)]: one output row per cell, as
    wide as the longest split.  A text cell gives its pieces, padded with
    [None]; any other cell gives [nan] throughout.  On a column without a
    single text cell pandas raises (which exception depends on the dtype
    the column was read with). *)
Definition str_split_expand (sep : ascii) (col : list scalar)
  : exn + (nat * list (list scalar)) :=
  let pieces := map (fun c => match c with
                              | SStr s => Some (split_on sep s)
                              | _ => None
                              end) col in
  let width := fold_right (fun p w => match p with
                                      | Some l => Nat.max (List.length l) w
                                      | None => w
                                      end) O pieces in
  if existsb (fun p => match p with Some _ => true | None => false end) pieces
  then inr (width,
            map (fun p => match p with
                          | Some l => (map SStr l
                                       ++ repeat SNone (width - List.length l))%list
                          | None => repeat SNaN width
                          end) pieces)
  else inl (CollaboratorError "str.split").

(** [df[[l1, l2]] = frame]: the frame must be two columns wide. *)
Definition assign_two_columns (l1 l2 : string)
           (frame : nat * list (list scalar)) (df : DataFrame)
  : exn + DataFrame :=
  if Nat.eqb (fst frame) 2
  then inr (assign_column l2 (map (fun r => nth 1 r SNaN) (snd frame))
              (assign_column l1 (map (fun r => nth 0 r SNaN) (snd frame)) df))
  else inl ValueError.

(** [pd.concat([a, b], ignore_index=True)]: the rows of [a] then those of
    [b], re-labelled from 0; a column missing on one side is filled with
    [nan]. *)
Definition align (cols : list scalar) (row : Series) : list scalar :=
  map (fun c => match dict_get c row with Some v => v | None => SNaN end) cols.

Definition concat_ignore_index (a b : DataFrame) : DataFrame :=
  let extra := filter (fun c => negb (existsb (key_eqb c) (df_columns a)))
                      (df_columns b) in
  let cols := (df_columns a ++ extra)%list in
  let rows := (map (fun r => align cols (combine (df_columns a) r)) (df_rows a)
               ++ map (fun r => align cols (combine (df_columns b) r)) (df_rows b))%list in
  {| df_columns := cols;
     df_index := map Z.of_nat (seq 0 (List.length rows));
     df_rows := rows |}.

(* ================================================================== *)
(** ** Collaborators *)

(** The location of the input file, as [VerifyInputFile] hands it back:
    a path object with its final component [name]. *)
Record Path : Type := {
  location : string;
  name : string
}.

(** What lives outside [excel_processor.py]: the spreadsheet reader, the
    cleansing rules of [DataCleanser] and the text of a float. *)
Class External : Type := {
  (** [pd.read_excel(file, sheet_name, skiprows, usecols, nrows, **kwargs)] *)
  read_excel : Path -> pyval -> pyval -> pyval -> pyval -> pydict -> exn + DataFrame;
  cleanse_conditioned_zone_loads_non_free_float : DataFrame -> exn + DataFrame;
  (** the argument is [case_column], [None] when it is left out *)
  cleanse_solar_radiation_annual : option string -> DataFrame -> exn + DataFrame;
  cleanse_sky_temperature_output : DataFrame -> exn + DataFrame;
  cleanse_free_float_case_zone_temperatures : DataFrame -> exn + DataFrame;
  cleanse_monthly_conditioned_loads : DataFrame -> exn + DataFrame;
  (** [str(x)] on a float *)
  float_repr : Q -> string;
  (** [sys.get_int_max_str_digits()]: the most digits [int] converts from
      text; [None] on an interpreter without the limit *)
  int_max_str_digits : option nat
}.

(** [str(x)] *)
Definition py_str `{env : External} (x : scalar) : string :=
  match x with
  | SNone => "None"
  | SBool true => "True"
  | SBool false => "False"
  | SInt z => str_of_Z z
  | SFloat q => float_repr q
  | SNaN => "nan"
  | SStr s => s
  | STimestamp iso => iso
  end.

(** [int(s)] on a [str]: the value of the literal, or no value
    ([ValueError]) when the text is not a literal or has more digits than
    the interpreter converts. *)
Definition int_of_text `{env : External} (s : string) : option Z :=
  match int_max_str_digits with
  | Some limit => if Nat.ltb limit (count_digits s) then None else int_literal s
  | None => int_literal s
  end.

(** [int(x)].  A float is truncated toward zero; [nan] and text that
    [int] does not convert raise [ValueError]; [None] and time stamps raise
    [TypeError]. *)
Definition py_int `{env : External} (x : scalar) : exn + Z :=
  match x with
  | SNone => inl TypeError
  | SBool b => inr (if b then 1 else 0)
  | SInt z => inr z
  | SFloat q => inr (Z.quot (Qnum q) (Z.pos (Qden q)))
  | SNaN => inl ValueError
  | SStr s => match int_of_text s with Some z => inr z | None => inl ValueError end
  | STimestamp _ => inl TypeError
  end.

(* ================================================================== *)
(** ** The object and its methods' monad *)

Record ExcelProcessor : Type := {
  (** the messages passed to [logger.error], oldest first *)
  logger : list string;
  file_location : option Path;
  _section_type : option string;
  _data_sources : option pydict;
  _processing_functions : option pydict;
  test_data : option pydict;
  software_name : option scalar;
  software_version : option scalar;
  software_release_date : option scalar;
  (** not an attribute: the regions handed to [read_excel] so far *)
  regions_read : list string
}.

(** The object before [__init__] has assigned anything. *)
Definition new_object : ExcelProcessor :=
  {| logger := []; file_location := None; _section_type := None;
     _data_sources := None; _processing_functions := None; test_data := None;
     software_name := None; software_version := None;
     software_release_date := None; regions_read := [] |}.

Inductive outcome (A : Type) : Type :=
| Returns (a : A) (self : ExcelProcessor)
| Raises (e : exn) (self : ExcelProcessor).
Arguments Returns {A} a self.
Arguments Raises {A} e self.

Definition M (A : Type) : Type := ExcelProcessor -> outcome A.

Definition ret {A : Type} (a : A) : M A := fun self => Returns a self.

Definition bind {A B : Type} (c : M A) (k : A -> M B) : M B :=
  fun self =>
    match c self with
    | Returns a self' => k a self'
    | Raises e self' => Raises e self'
    end.

Definition raise {A : Type} (e : exn) : M A := fun self => Raises e self.

(** A collaborator's or a built-in's result enters the method. *)
Definition lift {A : Type} (r : exn + A) : M A :=
  match r with
  | inl e => raise e
  | inr a => ret a
  end.

Definition bind_sum {A B : Type} (r : exn + A) (k : A -> exn + B) : exn + B :=
  match r with
  | inl e => inl e
  | inr a => k a
  end.

Declare Scope method_scope.
Delimit Scope method_scope with method.
Notation "x <- c ;; k" := (bind c (fun x => k))
  (at level 61, c at next level, right associativity) : method_scope.
Notation "c ;; k" := (bind c (fun _ => k))
  (at level 61, right associativity) : method_scope.

Declare Scope sum_scope.
Delimit Scope sum_scope with sum.
Notation "x <- c ;; k" := (bind_sum c (fun x => k))
  (at level 61, c at next level, right associativity) : sum_scope.

(** Attribute access. *)
Definition getattr {A : Type} (attr : string)
           (field : ExcelProcessor -> option A) : M A :=
  fun self =>
    match field self with
    | Some v => Returns v self
    | None => Raises (AttributeError attr) self
    end.

Definition modify (f : ExcelProcessor -> ExcelProcessor) : M unit :=
  fun self => Returns tt (f self).

Definition with_logger v (o : ExcelProcessor) : ExcelProcessor :=
  {| logger := v; file_location := file_location o;
     _section_type := _section_type o; _data_sources := _data_sources o;
     _processing_functions := _processing_functions o; test_data := test_data o;
     software_name := software_name o; software_version := software_version o;
     software_release_date := software_release_date o;
     regions_read := regions_read o |}.

Definition with_file_location v (o : ExcelProcessor) : ExcelProcessor :=
  {| logger := logger o; file_location := v;
     _section_type := _section_type o; _data_sources := _data_sources o;
     _processing_functions := _processing_functions o; test_data := test_data o;
     software_name := software_name o; software_version := software_version o;
     software_release_date := software_release_date o;
     regions_read := regions_read o |}.

Definition with_section_type v (o : ExcelProcessor) : ExcelProcessor :=
  {| logger := logger o; file_location := file_location o;
     _section_type := v; _data_sources := _data_sources o;
     _processing_functions := _processing_functions o; test_data := test_data o;
     software_name := software_name o; software_version := software_version o;
     software_release_date := software_release_date o;
     regions_read := regions_read o |}.

Definition with_data_sources v (o : ExcelProcessor) : ExcelProcessor :=
  {| logger := logger o; file_location := file_location o;
     _section_type := _section_type o; _data_sources := v;
     _processing_functions := _processing_functions o; test_data := test_data o;
     software_name := software_name o; software_version := software_version o;
     software_release_date := software_release_date o;
     regions_read := regions_read o |}.

Definition with_processing_functions v (o : ExcelProcessor) : ExcelProcessor :=
  {| logger := logger o; file_location := file_location o;
     _section_type := _section_type o; _data_sources := _data_sources o;
     _processing_functions := v; test_data := test_data o;
     software_name := software_name o; software_version := software_version o;
     software_release_date := software_release_date o;
     regions_read := regions_read o |}.

Definition with_test_data v (o : ExcelProcessor) : ExcelProcessor :=
  {| logger := logger o; file_location := file_location o;
     _section_type := _section_type o; _data_sources := _data_sources o;
     _processing_functions := _processing_functions o; test_data := v;
     software_name := software_name o; software_version := software_version o;
     software_release_date := software_release_date o;
     regions_read := regions_read o |}.

Definition with_software_name v (o : ExcelProcessor) : ExcelProcessor :=
  {| logger := logger o; file_location := file_location o;
     _section_type := _section_type o; _data_sources := _data_sources o;
     _processing_functions := _processing_functions o; test_data := test_data o;
     software_name := v; software_version := software_version o;
     software_release_date := software_release_date o;
     regions_read := regions_read o |}.

Definition with_software_version v (o : ExcelProcessor) : ExcelProcessor :=
  {| logger := logger o; file_location := file_location o;
     _section_type := _section_type o; _data_sources := _data_sources o;
     _processing_functions := _processing_functions o; test_data := test_data o;
     software_name := software_name o; software_version := v;
     software_release_date := software_release_date o;
     regions_read := regions_read o |}.

Definition with_software_release_date v (o : ExcelProcessor) : ExcelProcessor :=
  {| logger := logger o; file_location := file_location o;
     _section_type := _section_type o; _data_sources := _data_sources o;
     _processing_functions := _processing_functions o; test_data := test_data o;
     software_name := software_name o; software_version := software_version o;
     software_release_date := v;
     regions_read := regions_read o |}.

Definition with_regions_read v (o : ExcelProcessor) : ExcelProcessor :=
  {| logger := logger o; file_location := file_location o;
     _section_type := _section_type o; _data_sources := _data_sources o;
     _processing_functions := _processing_functions o; test_data := test_data o;
     software_name := software_name o; software_version := software_version o;
     software_release_date := software_release_date o;
     regions_read := v |}.

(** [self.logger.error(msg)] *)
Definition logger_error (msg : string) : M unit :=
  modify (fun o => with_logger (logger o ++ [msg])%list o).

Local Open Scope method_scope.

(* ================================================================== *)
(** ** The descriptors *)

Module SectionType.
Definition __get__ : M string := getattr "_section_type" _section_type.

(** [value] is the verified file location; the tag is derived from
    [str(value.name)]. *)
Definition __set__ (value : Path) : M unit :=
  if re_match_dotstar_lit_ci "results5-2a" (name value)
  then modify (with_section_type (Some "5-2A"))
  else if re_match_dotstar_lit_ci "results5-2b" (name value)
  then modify (with_section_type (Some "5-2B"))
  else logger_error ("Error: The file name (" ++ name value
                     ++ ") did not match formatting guidelines or "
                     ++ "the referenced section at the beginning of the name is not supported").
End SectionType.

(** The built-in extraction instructions of the two sections. *)
Definition descriptor4 (tab : string) (row : Z) (cols : string) (n : Z) : pyval :=
  VTuple [VStr tab; VInt row; VStr cols; VInt n].

Definition descriptor5 (tab : string) (row : Z) (cols : string) (n : Z)
           (kwargs : pydict) : pyval :=
  VTuple [VStr tab; VInt row; VStr cols; VInt n; VDict kwargs].

Definition data_sources_2a : pydict :=
  dict_lit
    [(SStr "identifying_information",
      descriptor5 "YourData" 60 "B:C" 3 (dict_lit [(SStr "header", VNone)]));
     (SStr "conditioned_zone_loads_non_free_float", descriptor4 "YourData" 68 "B:L" 46);
     (SStr "solar_radiation_annual_incident", descriptor4 "YourData" 153 "B:C" 5);
     (SStr "solar_radiation_unshaded_annual_transmitted", descriptor4 "YourData" 161 "B:C" 4);
     (SStr "solar_radiation_shaded_annual_transmitted", descriptor4 "YourData" 168 "B:C" 2);
     (SStr "sky_temperature_output", descriptor4 "YourData" 176 "B:K" 1);
     (SStr "annual_hourly_zone_temperature_bin_data", descriptor4 "YourData" 328 "B:C" 149);
     (SStr "free_float_case_zone_temperatures", descriptor4 "YourData" 128 "B:K" 7);
     (SStr "monthly_conditioned_zone_loads", descriptor4 "YourData" 188 "B:R" 12)].

Definition data_sources_2b : pydict :=
  dict_lit
    [(SStr "identifying_information",
      descriptor5 "YourData" 4 "E:I" 4 (dict_lit [(SStr "header", VNone)]));
     (SStr "steady_state_cases",
      descriptor5 "YourData" 57 "D:H" 6 (dict_lit [(SStr "header", VNone)]))].

Module SetDataSources.
Definition __get__ : M pydict := getattr "_data_sources" _data_sources.

(** [isinstance(value, dict) and value] holds of a non-empty dict only. *)
Definition __set__ (value : pyval) : M unit :=
  match value with
  | VDict (entry :: entries) =>
      modify (with_data_sources (Some (entry :: entries)))
  | _ =>
      section_type <- SectionType.__get__ ;;
      if String.eqb section_type "5-2A"
      then modify (with_data_sources (Some data_sources_2a))
      else
        section_type <- SectionType.__get__ ;;
        if String.eqb section_type "5-2B"
        then modify (with_data_sources (Some data_sources_2b))
        else
          section_type <- SectionType.__get__ ;;
          logger_error ("Error: Section (" ++ section_type
                        ++ ") is not currently supported")
  end.
End SetDataSources.

(* ================================================================== *)
(** ** The region reader *)

(** [list(x)] *)
Fixpoint chars_of (s : string) : list pyval :=
  match s with
  | EmptyString => []
  | String c s' => VStr (String c EmptyString) :: chars_of s'
  end.

Definition py_list (x : pyval) : exn + list pyval :=
  match x with
  | VTuple items => inr items
  | VDict d => inr (map (fun kv => VS (fst kv)) d)
  | VS (SStr s) => inr (chars_of s)
  | VS _ => inl TypeError
  end.

(** [**kwargs] in a call: the value must be a mapping with text keys. *)
Definition keyword_arguments (kwargs : pyval) : exn + pydict :=
  match kwargs with
  | VDict d =>
      if forallb (fun k => match k with SStr _ => true | _ => false end) (dict_keys d)
      then inr d
      else inl TypeError
  | _ => inl TypeError
  end.

Definition region_not_found_message : string :=
  "Data extraction instructions for Identifying Information section "
  ++ "was not found".

Definition _get_data `{env : External} (region_name : string) : M DataFrame :=
  data_sources <- SetDataSources.__get__ ;;
  match dict_get (SStr region_name) data_sources with
  | None => raise (ASHRAE140ProcessingError region_not_found_message)
  | Some data_source =>
      items <- lift (py_list data_source) ;;
      match firstn 5 (items ++ repeat (VDict []) 5)%list with
      | [data_tab; skip_rows; excel_cols; n_rows; kwargs] =>
          file <- getattr "file_location" file_location ;;
          kwargs <- lift (keyword_arguments kwargs) ;;
          modify (fun o => with_regions_read (regions_read o ++ [region_name])%list o) ;;
          lift (read_excel file data_tab skip_rows excel_cols n_rows kwargs)
      | _ => raise ValueError
      end
  end.

(* ================================================================== *)
(** ** The region extractors *)

(** A [for] loop over [items] that updates an accumulator and stops at the
    first exception. *)
Fixpoint for_each {A S : Type} (body : S -> A -> exn + S) (items : list A) (acc : S)
  : exn + S :=
  match items with
  | [] => inr acc
  | x :: items' =>
      match body acc x with
      | inl e => inl e
      | inr acc' => for_each body items' acc'
      end
  end.

(** [re.match(r'^LIT.*', cell)]: a cell that is not text is a [TypeError]. *)
Definition re_match_label (lit : string) (cell : scalar) : exn + bool :=
  match cell with
  | SStr s => inr (re_match_caret_lit lit s)
  | _ => inl TypeError
  end.

(** *** Section 5-2A *)

Definition _extract_identifying_information_2a `{env : External} : M pyval :=
  df <- _get_data "identifying_information" ;;
  label <- lift (iloc df 0 0) ;;
  found <- lift (re_match_label "Software" label) ;;
  (if negb found
   then logger_error "Software name information not found" ;;
        modify (with_software_name (Some SNone))
   else v <- lift (iloc df 0 1) ;;
        modify (with_software_name (Some v))) ;;
  label <- lift (iloc df 1 0) ;;
  found <- lift (re_match_label "Version" label) ;;
  (if negb found
   then logger_error "Software version information not found" ;;
        modify (with_software_version (Some SNone))
   else v <- lift (iloc df 1 1) ;;
        modify (with_software_version (Some v))) ;;
  label <- lift (iloc df 2 0) ;;
  found <- lift (re_match_label "Date" label) ;;
  (if negb found
   then logger_error "Software release date information not found" ;;
        modify (with_software_release_date (Some SNone))
   else v <- lift (iloc df 2 1) ;;
        modify (with_software_release_date (Some v))) ;;
  software_name <- getattr "software_name" software_name ;;
  software_version <- getattr "software_version" software_version ;;
  software_release_date <- getattr "software_release_date" software_release_date ;;
  ret (VDict (dict_lit
                [(SStr "software_name", VS software_name);
                 (SStr "software_version", VS software_version);
                 (SStr "software_release_date", VStr (py_str software_release_date))])).

(** The loop shared by the two per-case tables: the first cell of a row is
    the case, [df.iloc[idx, 1:].to_dict()] the entry. *)
Definition case_row_entry `{env : External} (df : DataFrame) (data_d : pydict)
           (it : Z * Series) : exn + pydict :=
  (case_number <- series_pos 0 (snd it) ;;
   r <- iloc_row df (fst it) ;;
   let row_obj := to_dict (skipn 1 (combine (df_columns df) r)) in
   inr (dict_update data_d
          (dict_lit [(SStr (py_str case_number), VDict row_obj)])))%sum.

Definition conditioned_zone_loads_non_free_float_of `{env : External} (df : DataFrame)
  : exn + pyval :=
  (df <- set_columns
           ["case"; "annual_heating_MWh"; "annual_cooling_MWh"; "peak_heating_kW";
            "peak_heating_month"; "peak_heating_day"; "peak_heating_hour";
            "peak_cooling_kW"; "peak_cooling_month"; "peak_cooling_day";
            "peak_cooling_hour"] df ;;
   cases <- column_values "case" df ;;
   let df := assign_column "case" (map (fun c => SStr (py_str c)) cases) df in
   df <- cleanse_conditioned_zone_loads_non_free_float df ;;
   data_d <- for_each (case_row_entry df) (iterrows df) [] ;;
   inr (VDict data_d))%sum.

Definition _extract_conditioned_zone_loads_non_free_float `{env : External} : M pyval :=
  df <- _get_data "conditioned_zone_loads_non_free_float" ;;
  lift (conditioned_zone_loads_non_free_float_of df).

Definition solar_radiation_annual_incident_of `{env : External} (df : DataFrame)
  : exn + pyval :=
  (df <- set_columns ["Surface"; "kWh/m2"] df ;;
   df <- cleanse_solar_radiation_annual None df ;;
   surfaces <- for_each
                 (fun (acc : pydict) (it : Z * Series) =>
                    surface <- series_loc "Surface" (snd it) ;;
                    value <- series_loc "kWh/m2" (snd it) ;;
                    inr (dict_update acc
                           (dict_lit [(SStr (py_str surface),
                                       VDict (dict_lit [(SStr "kWh/m2", VS value)]))])))
                 (iterrows df) [] ;;
   inr (VDict (dict_lit
                 [(SStr "600", VDict (dict_lit [(SStr "Surface", VDict surfaces)]))])))%sum.

Definition _extract_solar_radiation_annual_incident `{env : External} : M pyval :=
  df <- _get_data "solar_radiation_annual_incident" ;;
  lift (solar_radiation_annual_incident_of df).

(** The body shared by the two transmitted-radiation extractors, which
    differ in the region they read only. *)
Definition transmitted_row_entry (data_d : pydict) (it : Z * Series)
  : exn + pydict :=
  (case <- series_loc "Case" (snd it) ;;
   surface <- series_loc "Surface" (snd it) ;;
   value <- series_loc "kWh/m2" (snd it) ;;
   inr (dict_update data_d
          (dict_lit
             [(case,
               VDict (dict_lit
                 [(SStr "Surface",
                   VDict (dict_lit
                     [(surface,
                       VDict (dict_lit [(SStr "kWh/m2", VS value)]))]))]))])))%sum.

Definition split_case_surface (df : DataFrame) : exn + DataFrame :=
  (df <- set_columns ["Case/Surface"; "kWh/m2"] df ;;
   combined <- column_values "Case/Surface" df ;;
   frame <- str_split_expand "/"%char combined ;;
   df <- assign_two_columns "Case" "Surface" frame df ;;
   drop_column "Case/Surface" df)%sum.

Definition solar_radiation_annual_transmitted_of `{env : External} (df : DataFrame)
  : exn + pyval :=
  (df <- split_case_surface df ;;
   df <- cleanse_solar_radiation_annual (Some "Case") df ;;
   data_d <- for_each transmitted_row_entry (iterrows df) [] ;;
   inr (VDict data_d))%sum.

Definition _extract_solar_radiation_unshaded_annual_transmitted `{env : External} : M pyval :=
  df <- _get_data "solar_radiation_unshaded_annual_transmitted" ;;
  lift (solar_radiation_annual_transmitted_of df).

Definition _extract_solar_radiation_shaded_annual_transmitted `{env : External} : M pyval :=
  df <- _get_data "solar_radiation_shaded_annual_transmitted" ;;
  lift (solar_radiation_annual_transmitted_of df).

Definition sky_temperature_row (acc : pydict) (it : Z * Series) : exn + pydict :=
  (average <- series_loc "Ann. Hourly Average C" (snd it) ;;
   let acc := dict_update acc
                (dict_lit [(SStr "Average", VDict (dict_lit [(SStr "C", VS average)]))]) in
   min_c <- series_loc "Minimum C" (snd it) ;;
   min_month <- series_loc "Minimum Month" (snd it) ;;
   min_hour <- series_loc "Minimum Hour" (snd it) ;;
   let acc := dict_update acc
                (dict_lit [(SStr "Minimum",
                            VDict (dict_lit [(SStr "C", VS min_c);
                                             (SStr "Month", VS min_month);
                                             (SStr "Hour", VS min_hour)]))]) in
   max_c <- series_loc "Maximum C" (snd it) ;;
   max_month <- series_loc "Maximum Month" (snd it) ;;
   max_hour <- series_loc "Maximum Hour" (snd it) ;;
   inr (dict_update acc
          (dict_lit [(SStr "Maximum",
                      VDict (dict_lit [(SStr "C", VS max_c);
                                       (SStr "Month", VS max_month);
                                       (SStr "Hour", VS max_hour)]))])))%sum.

Definition sky_temperature_output_of `{env : External} (df : DataFrame) : exn + pyval :=
  (df <- set_columns
           ["case"; "Ann. Hourly Average C"; "Minimum C"; "Minimum Month";
            "Minimum Day"; "Minimum Hour"; "Maximum C"; "Maximum Month";
            "Maximum Day"; "Maximum Hour"] df ;;
   df <- cleanse_sky_temperature_output df ;;
   inner <- for_each sky_temperature_row (iterrows df) [] ;;
   inr (VDict (dict_lit [(SStr "600", VDict inner)])))%sum.

Definition _extract_sky_temperature_output `{env : External} : M pyval :=
  df <- _get_data "sky_temperature_output" ;;
  lift (sky_temperature_output_of df).

(** The hourly bin table is the one region that goes through no cleansing
    rule: the cells are converted with [int] as they are. *)
Definition temperature_bin_row `{env : External} (bins : pydict) (it : Z * Series)
  : exn + pydict :=
  (bin_cell <- series_loc "temperature_bin_c" (snd it) ;;
   bin <- py_int bin_cell ;;
   hours_cell <- series_loc "number_of_hours" (snd it) ;;
   hours <- py_int hours_cell ;;
   inr (dict_update bins
          (dict_lit [(SInt bin,
                      VDict (dict_lit [(SStr "number_of_hours", VInt hours)]))])))%sum.

Definition hourly_annual_zone_temperature_bin_data_of `{env : External}
           (df : DataFrame) : exn + pyval :=
  (df <- set_columns ["temperature_bin_c"; "number_of_hours"] df ;;
   bins <- for_each temperature_bin_row (iterrows df) [] ;;
   inr (VDict (dict_lit
                 [(SStr "900FF",
                   VDict (dict_lit [(SStr "temperature_bin_c", VDict bins)]))])))%sum.

Definition _extract_hourly_annual_zone_temperature_bin_data `{env : External} : M pyval :=
  df <- _get_data "annual_hourly_zone_temperature_bin_data" ;;
  lift (hourly_annual_zone_temperature_bin_data_of df).

Definition free_float_case_zone_temperatures_of `{env : External} (df : DataFrame)
  : exn + pyval :=
  (df <- set_columns
           ["case"; "average_temperature"; "minimum_temperature"; "minimum_month";
            "minimum_day"; "minimum_hour"; "maximum_temperature"; "maximum_month";
            "maximum_day"; "maximum_hour"] df ;;
   df <- cleanse_free_float_case_zone_temperatures df ;;
   data_d <- for_each (case_row_entry df) (iterrows df) [] ;;
   inr (VDict data_d))%sum.

Definition _extract_free_float_case_zone_temperatures `{env : External} : M pyval :=
  df <- _get_data "free_float_case_zone_temperatures" ;;
  lift (free_float_case_zone_temperatures_of df).

Definition monthly_columns : list string :=
  ["month"; "total_heating_kwh"; "total_cooling_kwh"; "peak_heating_kw";
   "peak_heating_day"; "peak_heating_hour"; "peak_cooling_kw"; "peak_cooling_day";
   "peak_cooling_hour"].

(** Positions of the columns that are none of ['case', 'index', 'month']. *)
Fixpoint metric_positions (from : nat) (cols : list scalar) : list nat :=
  match cols with
  | [] => []
  | c :: cols' =>
      if existsb (key_eqb c) [SStr "case"; SStr "index"; SStr "month"]
      then metric_positions (S from) cols'
      else from :: metric_positions (S from) cols'
  end.

Definition monthly_row_entry `{env : External} (df : DataFrame) (data_d : pydict)
           (it : Z * Series) : exn + pydict :=
  (case <- series_loc "case" (snd it) ;;
   let case_number := SStr (py_str case) in
   row_obj <- iloc_row_cols_to_dict df (fst it) (metric_positions 0 (df_columns df)) ;;
   (* if not data_d.get(case_number): data_d[case_number] = {} *)
   let months := match dict_get case_number data_d with
                 | Some (VDict (m :: ms)) => m :: ms
                 | _ => []
                 end in
   month <- series_loc "month" (snd it) ;;
   inr (dict_set case_number
          (VDict (dict_update months (dict_lit [(month, VDict row_obj)])))
          data_d))%sum.

Definition monthly_conditioned_zone_loads_of `{env : External} (df : DataFrame)
  : exn + pyval :=
  (df_600 <- iloc_cols df (seq 0 9) ;;
   df_600 <- set_columns monthly_columns df_600 ;;
   let df_600 := assign_constant "case" (SStr "600") df_600 in
   df_900 <- iloc_cols df (0%nat :: seq 9 8) ;;
   df_900 <- set_columns monthly_columns df_900 ;;
   let df_900 := assign_constant "case" (SStr "900") df_900 in
   df_600 <- cleanse_monthly_conditioned_loads df_600 ;;
   df_900 <- cleanse_monthly_conditioned_loads df_900 ;;
   let df := concat_ignore_index df_600 df_900 in
   data_d <- for_each (monthly_row_entry df) (iterrows df) [] ;;
   inr (VDict data_d))%sum.

Definition _extract_monthly_conditioned_zone_loads `{env : External} : M pyval :=
  df <- _get_data "monthly_conditioned_zone_loads" ;;
  lift (monthly_conditioned_zone_loads_of df).

(** *** Section 5-2B *)

Definition _extract_identifying_information_2b `{env : External} : M pyval :=
  df <- _get_data "identifying_information" ;;
  short_name <- lift (iloc df 2 4) ;;
  modify (with_software_name (Some short_name)) ;;
  name_and_version <- lift (iloc df 0 0) ;;
  short_name <- lift (iloc df 2 4) ;;
  modify (with_software_version
            (Some (SStr (strip (str_replace_with_empty (py_str short_name)
                                                       (py_str name_and_version)))))) ;;
  release_date <- lift (iloc df 1 4) ;;
  modify (with_software_release_date (Some (SStr (py_str release_date)))) ;;
  name_and_version <- lift (iloc df 0 0) ;;
  release_date <- lift (iloc df 1 4) ;;
  short_name <- lift (iloc df 2 4) ;;
  submittal_date <- lift (iloc df 3 4) ;;
  ret (VDict (dict_lit
                [(SStr "program_name_and_version", VS name_and_version);
                 (SStr "program_version_release_date", VStr (py_str release_date));
                 (SStr "program_name_short", VS short_name);
                 (SStr "results_submittal_date", VStr (py_str submittal_date))])).

Definition steady_state_row (data_d : pydict) (it : Z * Series) : exn + pydict :=
  (qfloor <- series_loc "qfloor" (snd it) ;;
   qzone <- series_loc "qzone" (snd it) ;;
   tzone <- series_loc "Tzone" (snd it) ;;
   tsim <- series_loc "tsim" (snd it) ;;
   case <- series_loc "cases" (snd it) ;;
   inr (dict_set case
          (VDict (dict_lit [(SStr "qfloor", VS qfloor); (SStr "qzone", VS qzone);
                            (SStr "Tzone", VS tzone); (SStr "tsim", VS tsim)]))
          data_d))%sum.

Definition steady_state_cases_of (df : DataFrame) : exn + pyval :=
  (df <- set_columns ["cases"; "qfloor"; "qzone"; "Tzone"; "tsim"] df ;;
   data_d <- for_each steady_state_row (iterrows df) [] ;;
   inr (VDict data_d))%sum.

Definition _extract_steady_state_cases `{env : External} : M pyval :=
  df <- _get_data "steady_state_cases" ;;
  lift (steady_state_cases_of df).

(* ================================================================== *)
(** ** The table of processing functions, the constructor and [run] *)

Module SetProcessingFunctions.
Definition __get__ : M pydict :=
  getattr "_processing_functions" _processing_functions.

(** Every extractor is called while the dict display is evaluated, in
    the order written. *)
Definition __set__ `{env : External} (value : string) : M unit :=
  if String.eqb value "5-2A"
  then
    r1 <- _extract_identifying_information_2a ;;
    r2 <- _extract_conditioned_zone_loads_non_free_float ;;
    r3 <- _extract_solar_radiation_annual_incident ;;
    r4 <- _extract_solar_radiation_unshaded_annual_transmitted ;;
    r5 <- _extract_solar_radiation_shaded_annual_transmitted ;;
    r6 <- _extract_sky_temperature_output ;;
    r7 <- _extract_hourly_annual_zone_temperature_bin_data ;;
    r8 <- _extract_free_float_case_zone_temperatures ;;
    r9 <- _extract_monthly_conditioned_zone_loads ;;
    modify (with_processing_functions
              (Some (dict_lit
                 [(SStr "identifying_information", r1);
                  (SStr "conditioned_zone_loads_non_free_float", r2);
                  (SStr "solar_radiation_annual_incident", r3);
                  (SStr "solar_radiation_unshaded_annual_transmitted", r4);
                  (SStr "solar_radiation_shaded_annual_transmitted", r5);
                  (SStr "sky_temperature_output", r6);
                  (SStr "hourly_annual_zone_temperature_bin_data", r7);
                  (SStr "free_float_case_zone_temperatures", r8);
                  (SStr "monthly_conditioned_zone_loads", r9)])))
  else if String.eqb value "5-2B"
  then
    r1 <- _extract_identifying_information_2b ;;
    r2 <- _extract_steady_state_cases ;;
    modify (with_processing_functions
              (Some (dict_lit
                 [(SStr "identifying_information", r1);
                  (SStr "steady_state_cases", r2)])))
  else
    section_type <- SectionType.__get__ ;;
    logger_error ("Error: Section (" ++ section_type
                  ++ ") is not currently supported").
End SetProcessingFunctions.

(** [ExcelProcessor.__init__(file_location, data_sources)], on the object
    the [Logger] base class has set up. *)
Definition __init__ `{env : External} (location : Path) (data_sources : pyval) : M unit :=
  modify (with_file_location (Some location)) ;;
  file <- getattr "file_location" file_location ;;
  SectionType.__set__ file ;;
  SetDataSources.__set__ data_sources ;;
  section_type <- SectionType.__get__ ;;
  SetProcessingFunctions.__set__ section_type ;;
  modify (with_test_data (Some [])) ;;
  modify (with_software_name (Some SNone)) ;;
  modify (with_software_version (Some SNone)) ;;
  modify (with_software_release_date (Some SNone)).

(** [ExcelProcessor.run()]; the returned [self] is the final state. *)
Definition run : M unit :=
  test_data <- getattr "test_data" test_data ;;
  processing_functions <- SetProcessingFunctions.__get__ ;;
  modify (with_test_data (Some (dict_update test_data processing_functions))).

(* ================================================================== *)
(** ** A concrete document *)

(** A reader over a document given as a table per header-skip row count,
    the cleansing rules that accept every table unchanged, and floats
    printed with one decimal. *)
Definition frame (rows : list (list scalar)) : DataFrame :=
  {| df_columns := map (fun n => SInt (Z.of_nat n))
                       (seq 0 (match rows with [] => 0 | r :: _ => List.length r end));
     df_index := map Z.of_nat (seq 0 (List.length rows));
     df_rows := rows |}.

Definition one_decimal (q : Q) : string :=
  let tenths := Z.quot (10 * Qnum q) (Z.pos (Qden q)) in
  let sign := if tenths <? 0 then "-" else "" in
  sign ++ str_of_Z (Z.quot (Z.abs tenths) 10) ++ "."
       ++ str_of_Z (Z.rem (Z.abs tenths) 10).

Definition document_reader (tables : Z -> exn + DataFrame) : External :=
  {| read_excel := fun _ _ skip_rows _ _ _ =>
       match skip_rows with
       | VS (SInt z) => tables z
       | _ => inl TypeError
       end;
     cleanse_conditioned_zone_loads_non_free_float := inr;
     cleanse_solar_radiation_annual := fun _ => inr;
     cleanse_sky_temperature_output := inr;
     cleanse_free_float_case_zone_temperatures := inr;
     cleanse_monthly_conditioned_loads := inr;
     float_repr := one_decimal;
     int_max_str_digits := Some 4300%nat |}.

Definition F (n d : Z) : scalar := SFloat (Qmake n (Z.to_pos d)).

Definition sample_identifying_information : list (list scalar) :=
  [[SStr "Software:"; SStr "EnergyPlus"];
   [SStr "Version:"; SStr "9.0.1"];
   [SStr "Date:"; STimestamp "2018-10-01 00:00:00"]].

Definition sample_tables_2a (identifying unshaded shaded bins : list (list scalar))
           (skip_rows : Z) : exn + DataFrame :=
  if skip_rows =? 60 then inr (frame identifying)
  else if skip_rows =? 68 then
    inr (frame [[SInt 600; F 43 10; F 60 10; F 32 10; SStr "Jan"; SInt 5; SInt 7;
                 F 64 10; SStr "Oct"; SInt 12; SInt 14];
                [SInt 610; F 44 10; F 43 10; F 32 10; SStr "Jan"; SInt 5; SInt 7;
                 F 59 10; SStr "Oct"; SInt 12; SInt 14]])
  else if skip_rows =? 153 then
    inr (frame [[SStr "North"; F 4270 10]; [SStr "South"; F 14560 10]])
  else if skip_rows =? 161 then inr (frame unshaded)
  else if skip_rows =? 168 then inr (frame shaded)
  else if skip_rows =? 176 then
    inr (frame [[SInt 600; F (-12) 10; F (-460) 10; SStr "Jan"; SInt 8; SInt 6;
                 F 255 10; SStr "Jul"; SInt 21; SInt 15]])
  else if skip_rows =? 328 then inr (frame bins)
  else if skip_rows =? 128 then
    inr (frame [[SStr "600FF"; F 252 10; F (-187) 10; SStr "Jan"; SInt 8; SInt 7;
                 F 644 10; SStr "Oct"; SInt 16; SInt 16]])
  else if skip_rows =? 188 then
    inr (frame [[SStr "Jan"; F 7170 10; F 250 10; F 32 10; SInt 5; SInt 7; F 30 10;
                 SInt 18; SInt 14; F 2410 10; F 20 10; F 25 10; SInt 5; SInt 7;
                 F 21 10; SInt 18; SInt 15];
                [SStr "Feb"; F 6040 10; F 360 10; F 31 10; SInt 9; SInt 7; F 35 10;
                 SInt 25; SInt 14; F 1990 10; F 30 10; F 24 10; SInt 9; SInt 7;
                 F 25 10; SInt 25; SInt 15]])
  else inl (CollaboratorError "read_excel").

Definition sample_2a : External :=
  document_reader
    (sample_tables_2a sample_identifying_information
       [[SStr "600/South"; F 9460 10]; [SStr "620/West"; F 5450 10]]
       [[SStr "610/South"; F 7560 10]; [SStr "630/West"; F 3590 10]]
       [[SInt (-5); SInt 10]; [SInt 0; F 200 10]]).

Definition results5_2a : Path :=
  {| location := "input/RESULTS5-2A-Test.xlsx"; name := "RESULTS5-2A-Test.xlsx" |}.

(* ================================================================== *)
(** ** Notions the statements use *)

Definition lower_string (s : string) : string :=
  string_of_list_ascii (map lower (list_ascii_of_string s)).

Fixpoint no_newline (s : string) : Prop :=
  match s with
  | EmptyString => True
  | String c s' => c <> newline /\ no_newline s'
  end.

(** [sig] occurs in [s] when letter case is ignored. *)
Definition contains_ci (sig s : string) : Prop :=
  exists before middle after,
    s = before ++ middle ++ after /\ lower_string middle = lower_string sig.

(** [sig] occurs in [s], letter case ignored, with no newline before it. *)
Definition occurs_on_first_line_ci (sig s : string) : Prop :=
  exists before middle after,
    s = before ++ middle ++ after
    /\ no_newline before
    /\ lower_string middle = lower_string sig.

(** A name that carries neither file-name signature on its first line. *)
Definition unrecognised (nm : string) : Prop :=
  ~ occurs_on_first_line_ci "results5-2a" nm
  /\ ~ occurs_on_first_line_ci "results5-2b" nm.

(** What the classifier logs for a name it does not recognise. *)
Definition unsupported_name_message (nm : string) : string :=
  "Error: The file name (" ++ nm
  ++ ") did not match formatting guidelines or "
  ++ "the referenced section at the beginning of the name is not supported".

(** A file whose name carries the first signature on its second line, a
    file of the second section and a file of neither. *)
Definition second_line_file : Path :=
  {| location := "input/notes" ++ String newline "results5-2a.xlsx";
     name := "notes" ++ String newline "results5-2a.xlsx" |}.

Definition results5_2b : Path :=
  {| location := "input/Results5-2B.xlsx"; name := "Results5-2B.xlsx" |}.

Definition annual_report : Path :=
  {| location := "input/annual_report.xlsx"; name := "annual_report.xlsx" |}.

(** [needle] occurs in [s], letter case respected. *)
Fixpoint mentions (needle s : string) : bool :=
  (String.prefix needle s
   || match s with
      | EmptyString => false
      | String _ s' => mentions needle s'
      end)%bool.

(** The value a nested mapping holds at the end of a key path. *)
Fixpoint leaf_at (path : list scalar) (v : pyval) : option scalar :=
  match path, v with
  | [], VS s => Some s
  | k :: path', VDict d =>
      match dict_get k d with
      | Some v' => leaf_at path' v'
      | None => None
      end
  | _, _ => None
  end.

(** The entry one row of a transmitted-radiation table stands for. *)
Definition surface_entry (surface value : scalar) : pyval :=
  VDict [(SStr "Surface", VDict [(surface, VDict [(SStr "kWh/m2", VS value)])])].

(** The entry one row of the bin table stands for. *)
Definition hours_entry (hours : Z) : pyval :=
  VDict [(SStr "number_of_hours", VInt hours)].

(** Both cells of a bin row through [int], the bin first. *)
Definition cast_bin_row `{env : External} (cells : scalar * scalar) : exn + (Z * Z) :=
  (bin <- py_int (fst cells) ;;
   hours <- py_int (snd cells) ;;
   inr (bin, hours))%sum.

Fixpoint cast_bin_rows `{env : External} (rows : list (scalar * scalar))
  : exn + list (Z * Z) :=
  match rows with
  | [] => inr []
  | r :: rows' =>
      (x <- cast_bin_row r ;;
       xs <- cast_bin_rows rows' ;;
       inr (x :: xs))%sum
  end.

(** A document of section 5-2B. *)
Definition sample_tables_2b (skip_rows : Z) : exn + DataFrame :=
  if skip_rows =? 4 then
    inr (frame [[SStr "BASESIM 1.2"; SNaN; SNaN; SNaN; SNaN];
                [SNaN; SNaN; SNaN; SNaN; STimestamp "2019-03-01 00:00:00"];
                [SNaN; SNaN; SNaN; SNaN; SStr "BASESIM"];
                [SNaN; SNaN; SNaN; SNaN; STimestamp "2019-06-30 00:00:00"]])
  else if skip_rows =? 57 then
    inr (frame [[SStr "GC10a"; F 26540 10; F 26540 10; SInt 30; SInt 0];
                [SStr "GC30a"; F 25850 10; F 25850 10; SInt 30; SInt 87600]])
  else inl (CollaboratorError "read_excel").

Definition sample_2b : External := document_reader sample_tables_2b.

(** An override schema for section 5-2B that describes the identifying
    information and leaves the steady-state cases out. *)
Definition identifying_information_only : pydict :=
  dict_lit
    [(SStr "identifying_information",
      descriptor5 "YourData" 4 "E:I" 4 (dict_lit [(SStr "header", VNone)]))].

(** The object as [__init__] leaves it before the processing functions
    are built, for the two sample files. *)
Definition ready (value : Path) (tag : string) (schema : pydict) : ExcelProcessor :=
  with_data_sources (Some schema)
    (with_section_type (Some tag)
       (with_file_location (Some value) new_object)).

(** A document of section 5-2A in which the unshaded and the shaded table
    both report case 600, South, with different values. *)
Definition overlapping_2a : External :=
  document_reader
    (sample_tables_2a sample_identifying_information
       [[SStr "600/South"; F 9460 10]; [SStr "620/West"; F 5450 10]]
       [[SStr "600/South"; F 7560 10]; [SStr "630/West"; F 3590 10]]
       [[SInt (-5); SInt 10]; [SInt 0; F 200 10]]).

(** The object a method leaves behind, and what it raised if it did. *)
Definition final_object {A : Type} (o : outcome A) : ExcelProcessor :=
  match o with
  | Returns _ self => self
  | Raises _ self => self
  end.

Definition raised {A : Type} (o : outcome A) : option exn :=
  match o with
  | Returns _ _ => None
  | Raises e _ => Some e
  end.

(** The constructed pipeline for the sample document of section 5-2A. *)
Definition constructed_2a : ExcelProcessor :=
  final_object (__init__ (env := sample_2a) results5_2a VNone new_object).

(** No key occurs twice. *)
Fixpoint distinct_keys (keys : list scalar) : bool :=
  match keys with
  | [] => true
  | k :: keys' => (negb (existsb (key_eqb k) keys') && distinct_keys keys')%bool
  end.

(** The character [c] does not occur in [s]. *)
Fixpoint lacks (c : ascii) (s : string) : Prop :=
  match s with
  | EmptyString => True
  | String c' s' => c' <> c /\ lacks c s'
  end.



(** The sample document of section 5-2A with another table of identifying
    information or another bin table. *)
Definition sample_2a_with (identifying bins : list (list scalar)) : External :=
  document_reader
    (sample_tables_2a identifying
       [[SStr "600/South"; F 9460 10]; [SStr "620/West"; F 5450 10]]
       [[SStr "610/South"; F 7560 10]; [SStr "630/West"; F 3590 10]]
       bins).

(** The first label reads 'Program:' instead of 'Software:'. *)
Definition mislabelled_2a : External :=
  sample_2a_with
    [[SStr "Program:"; SStr "EnergyPlus"];
     [SStr "Version:"; SStr "9.0.1"];
     [SStr "Date:"; STimestamp "2018-10-01 00:00:00"]]
    [[SInt (-5); SInt 10]; [SInt 0; F 200 10]].

(** The first label cell is empty, which the reader delivers as [nan]. *)
Definition blank_label_2a : External :=
  sample_2a_with
    [[SNaN; SStr "EnergyPlus"];
     [SStr "Version:"; SStr "9.0.1"];
     [SStr "Date:"; STimestamp "2018-10-01 00:00:00"]]
    [[SInt (-5); SInt 10]; [SInt 0; F 200 10]].

(** The bin table holds 20.7 hours in bin 0 and 3 hours in bin 2.5. *)
Definition fractional_bins_2a : External :=
  sample_2a_with sample_identifying_information
    [[SInt 0; F 207 10]; [F 25 10; SInt 3]].

(** A row of a transmitted-radiation table before the split, given its
    case, surface and value, and the same row after it. *)
Definition combined_row (x : string * string * scalar) : list scalar :=
  [SStr (fst (fst x) ++ "/" ++ snd (fst x)); snd x].

Definition split_row (x : string * string * scalar) : list scalar :=
  [snd x; SStr (fst (fst x)); SStr (snd (fst x))].

Definition split_columns : list scalar :=
  [SStr "kWh/m2"; SStr "Case"; SStr "Surface"].

(** A cleansed row (case, surface, value) in the column order of the
    split table, and the entry it stands for. *)
Definition cleansed_row (r : scalar * scalar * scalar) : list scalar :=
  [snd r; fst (fst r); snd (fst r)].

Definition case_entry (r : scalar * scalar * scalar) : scalar * pyval :=
  (fst (fst r), surface_entry (snd (fst r)) (snd r)).























(* ================================================================== *)
(** * Properties *)

(** ** Dictionaries *)

Lemma key_eqb_refl (k : scalar) : key_eqb k k = true.
Proof. unfold key_eqb. destruct (scalar_eq_dec k k); congruence. Qed.

Lemma key_eqb_eq (a b : scalar) : key_eqb a b = true <-> a = b.
Proof. unfold key_eqb. destruct (scalar_eq_dec a b); split; congruence. Qed.

Lemma key_eqb_neq (a b : scalar) : a <> b -> key_eqb a b = false.
Proof. unfold key_eqb. destruct (scalar_eq_dec a b); congruence. Qed.

Section DictFacts.
Context {V : Type}.
Implicit Types (d p : list (scalar * V)) (k : scalar) (v : V).

Lemma dict_get_set_same k v d : dict_get k (dict_set k v d) = Some v.
Proof.
  induction d as [|[k' v'] d IH]; simpl.
  - now rewrite key_eqb_refl.
  - destruct (key_eqb k k') eqn:E; simpl; rewrite E; auto.
Qed.

Lemma dict_get_set_other k k' v d :
  k <> k' -> dict_get k (dict_set k' v d) = dict_get k d.
Proof.
  intros N. induction d as [|[k0 v0] d IH]; simpl.
  - now rewrite (key_eqb_neq _ _ N).
  - destruct (key_eqb k' k0) eqn:E; simpl.
    + apply key_eqb_eq in E. subst k0. now rewrite (key_eqb_neq _ _ N).
    + now rewrite IH.
Qed.

Lemma dict_update_single d k v : dict_update d (dict_lit [(k, v)]) = dict_set k v d.
Proof. reflexivity. Qed.

Lemma dict_update_snoc d p k v :
  dict_update d (p ++ [(k, v)]) = dict_set k v (dict_update d p).
Proof. unfold dict_update. now rewrite fold_left_app. Qed.

Lemma dict_get_none_iff k d : dict_get k d = None <-> ~ In k (dict_keys d).
Proof.
  induction d as [|[k' v'] d IH]; simpl.
  - tauto.
  - destruct (key_eqb k k') eqn:E.
    + apply key_eqb_eq in E. subst. split; [discriminate | tauto].
    + rewrite IH. split; [|tauto].
      intros H [H1|H1]; [|tauto].
      subst. now rewrite key_eqb_refl in E.
Qed.

Lemma dict_get_app k d1 d2 :
  dict_get k (d1 ++ d2) =
  match dict_get k d1 with Some v => Some v | None => dict_get k d2 end.
Proof.
  induction d1 as [|[k' v'] d1 IH]; simpl; auto.
  destruct (key_eqb k k'); auto.
Qed.

Lemma dict_get_rev_none k p : dict_get k p = None -> dict_get k (rev p) = None.
Proof.
  rewrite !dict_get_none_iff. unfold dict_keys. rewrite map_rev.
  intros H I. apply H. now apply in_rev.
Qed.

Lemma dict_get_rev_nodup k p :
  NoDup (dict_keys p) -> dict_get k (rev p) = dict_get k p.
Proof.
  induction p as [|[k' v'] p IH]; simpl; auto.
  intros N. inversion N as [|? ? Hnot Hrest]; subst.
  rewrite dict_get_app. simpl.
  destruct (key_eqb k k') eqn:E.
  - apply key_eqb_eq in E. subst k'.
    rewrite dict_get_rev_none; auto.
    now apply dict_get_none_iff.
  - rewrite IH by assumption. now destruct (dict_get k p).
Qed.

(** After an update the last entry of [p] for a key decides, and keys
    [p] does not mention keep their value. *)
Lemma dict_get_update k d p :
  dict_get k (dict_update d p) =
  match dict_get k (rev p) with Some v => Some v | None => dict_get k d end.
Proof.
  induction p as [|[k' v'] p IH] using rev_ind; simpl; auto.
  rewrite dict_update_snoc, rev_app_distr. simpl.
  destruct (key_eqb k k') eqn:E.
  - apply key_eqb_eq in E. subst. apply dict_get_set_same.
  - rewrite dict_get_set_other, IH; auto.
    intros ->. now rewrite key_eqb_refl in E.
Qed.

Lemma dict_set_set_same k v v' d :
  dict_set k v (dict_set k v' d) = dict_set k v d.
Proof.
  induction d as [|[k0 v0] d IH]; simpl.
  - now rewrite key_eqb_refl.
  - destruct (key_eqb k k0) eqn:E; simpl; rewrite E; congruence.
Qed.

Lemma dict_set_comm k1 k2 v1 v2 d :
  k1 <> k2 ->
  dict_get k1 d <> None \/ dict_get k2 d <> None ->
  dict_set k1 v1 (dict_set k2 v2 d) = dict_set k2 v2 (dict_set k1 v1 d).
Proof.
  intros N. induction d as [|[k0 v0] d IH]; simpl.
  - intros [H|H]; congruence.
  - destruct (key_eqb k1 k0) eqn:E1, (key_eqb k2 k0) eqn:E2; simpl;
      rewrite ?E1, ?E2; auto.
    + apply key_eqb_eq in E1, E2. congruence.
    + intros H. now rewrite IH.
Qed.

Lemma dict_set_same_value k v d : dict_get k d = Some v -> dict_set k v d = d.
Proof.
  induction d as [|[k0 v0] d IH]; simpl; [discriminate|].
  destruct (key_eqb k k0) eqn:E.
  - congruence.
  - intros H. now rewrite IH.
Qed.

(** An assignment made before an update is absorbed by it or commutes
    with it. *)
Lemma dict_update_after_set p : forall d k v,
  dict_get k d <> None ->
  dict_update (dict_set k v d) p =
  match dict_get k p with
  | Some _ => dict_update d p
  | None => dict_set k v (dict_update d p)
  end.
Proof.
  induction p as [|[k2 v2] p IH]; intros d k v Hk; simpl; auto.
  change (dict_update (dict_set k v d) ((k2, v2) :: p))
    with (dict_update (dict_set k2 v2 (dict_set k v d)) p).
  change (dict_update d ((k2, v2) :: p)) with (dict_update (dict_set k2 v2 d) p).
  destruct (key_eqb k k2) eqn:E.
  - apply key_eqb_eq in E. subst k2. now rewrite dict_set_set_same.
  - assert (N : k <> k2) by (intros ->; now rewrite key_eqb_refl in E).
    rewrite <- (dict_set_comm k k2) by auto.
    apply IH. now rewrite dict_get_set_other.
Qed.

(** [d.update(p)] twice is [d.update(p)] once. *)
Lemma dict_update_idempotent p : forall d,
  dict_update (dict_update d p) p = dict_update d p.
Proof.
  induction p as [|[k v] p IH]; intros d; auto.
  change (dict_update d ((k, v) :: p)) with (dict_update (dict_set k v d) p).
  set (g := dict_update (dict_set k v d) p).
  change (dict_update g ((k, v) :: p)) with (dict_update (dict_set k v g) p).
  assert (Hg : dict_get k g =
               match dict_get k (rev p) with Some x => Some x | None => Some v end).
  { unfold g. now rewrite dict_get_update, dict_get_set_same. }
  assert (IHg : dict_update g p = g) by apply IH.
  rewrite dict_update_after_set.
  - rewrite IHg. destruct (dict_get k p) eqn:E; auto.
    apply dict_set_same_value. rewrite Hg. now rewrite dict_get_rev_none.
  - rewrite Hg. destruct (dict_get k (rev p)); discriminate.
Qed.

Lemma dict_update_keeps_nodup p : forall d,
  NoDup (dict_keys d) -> NoDup (dict_keys (dict_update d p)).
Proof.
  assert (S : forall k v d, NoDup (dict_keys d) -> NoDup (dict_keys (dict_set k v d))).
  { intros k v d. induction d as [|[k0 v0] d IH]; simpl; intros N.
    - constructor; [tauto | constructor].
    - inversion N as [|? ? Hnot Hrest]; subst.
      destruct (key_eqb k k0) eqn:E; simpl; constructor; auto.
      intros I. apply Hnot.
      apply dict_get_none_iff in Hnot.
      destruct (dict_get k0 (dict_set k v d)) eqn:G.
      + rewrite dict_get_set_other in G; [congruence|].
        intros ->. now rewrite key_eqb_refl in E.
      + apply dict_get_none_iff in G. tauto. }
  induction p as [|[k v] p IH]; intros d N; auto.
  apply IH. now apply S.
Qed.

(** On an empty dict the update by a dict is that dict. *)
Lemma dict_update_empty p : NoDup (dict_keys p) -> dict_update [] p = p.
Proof.
  assert (G : forall d, NoDup (dict_keys (d ++ p)) ->
                        dict_update d p = (d ++ p)%list).
  { induction p as [|[k v] p IH]; intros d N.
    - now rewrite app_nil_r.
    - change (dict_update d ((k, v) :: p)) with (dict_update (dict_set k v d) p).
      assert (E : dict_set k v d = (d ++ [(k, v)])%list).
      { clear IH. induction d as [|[k0 v0] d IHd]; simpl; auto.
        simpl in N. inversion N as [|? ? Hnot Hrest]; subst.
        rewrite key_eqb_neq.
        - now rewrite IHd.
        - intros ->. apply Hnot. unfold dict_keys. rewrite map_app.
          apply in_or_app. right. now left. }
      rewrite E, IH; rewrite <- app_assoc; auto. }
  intros N. now apply (G []).
Qed.
End DictFacts.

Lemma distinct_keys_nodup (keys : list scalar) :
  distinct_keys keys = true -> NoDup keys.
Proof.
  induction keys as [|k keys IH]; simpl; intros D; constructor.
  - apply andb_true_iff in D. destruct D as [D _].
    intros I. apply negb_true_iff in D.
    assert (X : existsb (key_eqb k) keys = true)
      by (apply existsb_exists; exists k; split; [assumption | apply key_eqb_refl]).
    congruence.
  - apply IH. apply andb_true_iff in D. tauto.
Qed.

(** ** The file-name patterns *)

Lemma lower_string_cons (c : ascii) (s : string) :
  lower_string (String c s) = String (lower c) (lower_string s).
Proof. reflexivity. Qed.

Lemma lower_string_nil_inv (s : string) :
  lower_string s = EmptyString -> s = EmptyString.
Proof. destruct s; [reflexivity | discriminate]. Qed.

Lemma starts_with_ci_spec (lit : string) : forall s,
  starts_with_ci lit s = true <->
  exists middle after, s = middle ++ after /\ lower_string middle = lower_string lit.
Proof.
  induction lit as [|a lit IH]; intros s; simpl.
  - split; [|reflexivity]. intros _. now exists EmptyString, s.
  - destruct s as [|b s].
    + split; [discriminate|].
      intros (m & q & E & L). destruct m; discriminate.
    + rewrite andb_true_iff, IH. unfold ci_eqb. rewrite Ascii.eqb_eq. split.
      * intros (Hc & m & q & -> & L).
        exists (String b m), q. split; [reflexivity|].
        rewrite !lower_string_cons. congruence.
      * intros (m & q & E & L). destruct m as [|c m]; [discriminate|].
        rewrite !lower_string_cons in L. simpl in E.
        injection E as -> ->. injection L as Lc Ls.
        split; [congruence|]. now exists m, q.
Qed.

Lemma re_match_dotstar_lit_ci_spec (lit : string) : forall s,
  re_match_dotstar_lit_ci lit s = true <-> occurs_on_first_line_ci lit s.
Proof.
  induction s as [|c s IH].
  - simpl. rewrite orb_false_r, starts_with_ci_spec. split.
    + intros (m & q & E & L). now exists EmptyString, m, q.
    + intros (b & m & q & E & _ & L).
      destruct b; [|discriminate]. now exists m, q.
  - change (re_match_dotstar_lit_ci lit (String c s))
      with (starts_with_ci lit (String c s)
            || (if Ascii.eqb c newline then false
                else re_match_dotstar_lit_ci lit s))%bool.
    rewrite orb_true_iff, starts_with_ci_spec. split.
    + intros [(m & q & E & L) | H].
      * now exists EmptyString, m, q.
      * destruct (Ascii.eqb c newline) eqn:Ec; [discriminate|].
        apply IH in H. destruct H as (b & m & q & -> & Hb & L).
        exists (String c b), m, q. repeat split; auto.
        intros ->. now rewrite Ascii.eqb_refl in Ec.
    + intros (b & m & q & E & Hb & L). destruct b as [|c' b].
      * left. now exists m, q.
      * right. simpl in E. injection E as -> ->. destruct Hb as [Hc Hb].
        destruct (Ascii.eqb c' newline) eqn:Ec.
        -- now apply Ascii.eqb_eq in Ec.
        -- apply IH. now exists b, m, q.
Qed.

Lemma re_match_dotstar_lit_ci_false (lit s : string) :
  ~ occurs_on_first_line_ci lit s -> re_match_dotstar_lit_ci lit s = false.
Proof.
  intros H. destruct (re_match_dotstar_lit_ci lit s) eqn:E; auto.
  now apply re_match_dotstar_lit_ci_spec in E.
Qed.

Lemma occurs_on_first_line_contains (sig s : string) :
  occurs_on_first_line_ci sig s -> contains_ci sig s.
Proof. intros (b & m & q & E & _ & L). now exists b, m, q. Qed.

(** A name in which a signature does not occur at all is unrecognised. *)
Lemma not_contains_unrecognised (nm : string) :
  ~ contains_ci "results5-2a" nm -> ~ contains_ci "results5-2b" nm ->
  unrecognised nm.
Proof.
  intros A B. split; intros H; [apply A | apply B];
    now apply occurs_on_first_line_contains.
Qed.

(** ** The classifier *)

Lemma section_type_set_2a (value : Path) (self : ExcelProcessor) :
  occurs_on_first_line_ci "results5-2a" (name value) ->
  SectionType.__set__ value self
  = Returns tt (with_section_type (Some "5-2A") self).
Proof.
  intros H. unfold SectionType.__set__.
  now rewrite (proj2 (re_match_dotstar_lit_ci_spec _ _) H).
Qed.

Lemma section_type_set_2b (value : Path) (self : ExcelProcessor) :
  ~ occurs_on_first_line_ci "results5-2a" (name value) ->
  occurs_on_first_line_ci "results5-2b" (name value) ->
  SectionType.__set__ value self
  = Returns tt (with_section_type (Some "5-2B") self).
Proof.
  intros A B. unfold SectionType.__set__.
  rewrite (re_match_dotstar_lit_ci_false _ _ A).
  now rewrite (proj2 (re_match_dotstar_lit_ci_spec _ _) B).
Qed.

Lemma section_type_set_unrecognised (value : Path) (self : ExcelProcessor) :
  unrecognised (name value) ->
  SectionType.__set__ value self
  = Returns tt (with_logger (logger self ++ [unsupported_name_message (name value)])
                            self).
Proof.
  intros [A B]. unfold SectionType.__set__.
  rewrite (re_match_dotstar_lit_ci_false _ _ A).
  now rewrite (re_match_dotstar_lit_ci_false _ _ B).
Qed.

Lemma prefix_app (a b : string) : String.prefix a (a ++ b) = true.
Proof.
  induction a as [|c a IH]; simpl.
  - now destruct b.
  - destruct (ascii_dec c c); [assumption | congruence].
Qed.

Lemma mentions_app (needle a b : string) : mentions needle (a ++ needle ++ b) = true.
Proof.
  induction a as [|c a IH].
  - assert (U : forall s, String.prefix needle s = true -> mentions needle s = true)
      by (intros s P; destruct s; cbn [mentions]; rewrite P; reflexivity).
    apply U. exact (prefix_app needle b).
  - change (mentions needle (String c a ++ needle ++ b))
      with (String.prefix needle (String c (a ++ needle ++ b))
            || mentions needle (a ++ needle ++ b))%bool.
    rewrite IH. apply orb_true_r.
Qed.

Lemma unsupported_name_message_mentions (nm : string) :
  mentions nm (unsupported_name_message nm) = true.
Proof. unfold unsupported_name_message. apply mentions_app. Qed.

(** The object [__init__] leaves behind when the name is unrecognised. *)
Lemma init_unrecognised `{env : External} (value : Path) (data_sources : pyval) :
  unrecognised (name value) ->
  __init__ value data_sources new_object
  = Raises (AttributeError "_section_type")
      (let logged := with_logger [unsupported_name_message (name value)]
                       (with_file_location (Some value) new_object) in
       match data_sources with
       | VDict (entry :: entries) => with_data_sources (Some (entry :: entries)) logged
       | _ => logged
       end).
Proof.
  intros U. unfold __init__, bind, modify, getattr. simpl.
  rewrite (section_type_set_unrecognised value _ U). simpl.
  destruct data_sources as [x|items|[|entry entries]]; reflexivity.
Qed.

(** C6 (as amended).  A name in which 'results5-2a' occurs, letter case
    ignored, with no newline before it is tagged '5-2A'; a name without
    such an occurrence in which 'results5-2b' occurs in that way is tagged
    '5-2B'.  The first signature is tried first, so a name with both is
    '5-2A'. *)
Theorem classifier_tags_first_line_signature (value : Path) (self : ExcelProcessor) :
  (occurs_on_first_line_ci "results5-2a" (name value) ->
   SectionType.__set__ value self
   = Returns tt (with_section_type (Some "5-2A") self))
  /\ (~ occurs_on_first_line_ci "results5-2a" (name value) ->
      occurs_on_first_line_ci "results5-2b" (name value) ->
      SectionType.__set__ value self
      = Returns tt (with_section_type (Some "5-2B") self)).
Proof.
  split.
  - apply section_type_set_2a.
  - apply section_type_set_2b.
Qed.

Lemma classifier_tags_first_line_signature_witness :
  SectionType.__set__ results5_2a new_object
  = Returns tt (with_section_type (Some "5-2A") new_object)
  /\ SectionType.__set__ results5_2b new_object
     = Returns tt (with_section_type (Some "5-2B") new_object).
Proof.
  split.
  - apply (proj1 (classifier_tags_first_line_signature results5_2a new_object)).
    apply re_match_dotstar_lit_ci_spec. reflexivity.
  - apply (proj2 (classifier_tags_first_line_signature results5_2b new_object)).
    + intros O. apply re_match_dotstar_lit_ci_spec in O. discriminate O.
    + apply re_match_dotstar_lit_ci_spec. reflexivity.
Defined.

(** C6 (as stated) fails: 'results5-2a' occurs in the name of
    [second_line_file], yet the classifier stores no tag for it, because the
    leading [.*] of the pattern does not run over the newline. *)
Lemma signature_after_newline_is_not_tagged :
  contains_ci "results5-2a" (name second_line_file)
  /\ SectionType.__set__ second_line_file new_object
     = Returns tt (with_logger [unsupported_name_message (name second_line_file)]
                               new_object)
  /\ SectionType.__set__ second_line_file new_object
     <> Returns tt (with_section_type (Some "5-2A") new_object).
Proof.
  split; [|split].
  - exists ("notes" ++ String newline ""), "results5-2a", ".xlsx". split; reflexivity.
  - reflexivity.
  - discriminate.
Qed.

(** C1 (as amended).  For a name that carries neither signature the
    classification step does not raise: it logs an error that quotes the
    name and returns with no tag stored, guessed or default.  The run is
    aborted all the same, by the attribute error of the first later read of
    the tag inside [__init__]. *)
Theorem unrecognised_name_is_logged_and_aborts_later
        `{env : External} (value : Path) (data_sources : pyval) (self : ExcelProcessor) :
  unrecognised (name value) ->
  SectionType.__set__ value self
  = Returns tt (with_logger (logger self ++ [unsupported_name_message (name value)])
                            self)
  /\ mentions (name value) (unsupported_name_message (name value)) = true
  /\ exists self',
       __init__ value data_sources new_object
       = Raises (AttributeError "_section_type") self'
       /\ _section_type self' = None.
Proof.
  intros U. split; [|split].
  - now apply section_type_set_unrecognised.
  - apply unsupported_name_message_mentions.
  - eexists. split.
    + now apply init_unrecognised.
    + destruct data_sources as [x|items|[|entry entries]]; reflexivity.
Qed.

Lemma annual_report_unrecognised : unrecognised (name annual_report).
Proof.
  split; intros O; apply re_match_dotstar_lit_ci_spec in O; discriminate O.
Qed.

Lemma unrecognised_name_is_logged_and_aborts_later_witness :
  SectionType.__set__ annual_report new_object
  = Returns tt (with_logger [unsupported_name_message "annual_report.xlsx"] new_object)
  /\ mentions "annual_report.xlsx" (unsupported_name_message "annual_report.xlsx") = true
  /\ exists self',
       __init__ (env := sample_2a) annual_report VNone new_object
       = Raises (AttributeError "_section_type") self'
       /\ _section_type self' = None.
Proof.
  apply (unrecognised_name_is_logged_and_aborts_later
           (env := sample_2a) annual_report VNone new_object).
  apply annual_report_unrecognised.
Defined.

(** C1 (as stated) fails: [annual_report] carries neither signature, and
    the classification step returns; it raises nothing. *)
Lemma classifier_does_not_raise_on_unrecognised_name :
  ~ contains_ci "results5-2a" (name annual_report)
  /\ ~ contains_ci "results5-2b" (name annual_report)
  /\ SectionType.__set__ annual_report new_object
     = Returns tt (with_logger [unsupported_name_message "annual_report.xlsx"]
                               new_object)
  /\ forall e self', SectionType.__set__ annual_report new_object <> Raises e self'.
Proof.
  assert (N : forall sig, mentions (lower_string sig)
                                   (lower_string (name annual_report)) = false ->
                          ~ contains_ci sig (name annual_report)).
  { intros sig Hm (b & m & q & E & L).
    assert (M : mentions (lower_string sig) (lower_string (name annual_report)) = true).
    { rewrite E, <- L.
      assert (D : forall x y, lower_string (x ++ y) = lower_string x ++ lower_string y).
      { intros x y. induction x as [|c x IHx]; [reflexivity|].
        simpl. rewrite !lower_string_cons. now rewrite IHx. }
      rewrite !D. apply mentions_app. }
    congruence. }
  split; [|split; [|split]].
  - apply N. reflexivity.
  - apply N. reflexivity.
  - reflexivity.
  - intros e self'. discriminate.
Qed.

(** C10.  For a name that carries neither signature the classifier stores
    no tag, so reading the tag raises [AttributeError]: at once in the
    built-in schema resolution when no override is supplied, and at the read
    that precedes the table of processing functions when one is.  Either
    way [__init__] raises before any region has been read and before the
    processing functions or the result mapping exist. *)
Theorem unrecognised_name_construction_fails
        `{env : External} (value : Path) (data_sources : pyval) :
  unrecognised (name value) ->
  (forall self self1,
      SectionType.__set__ value self = Returns tt self1 ->
      _section_type self1 = _section_type self)
  /\ (forall self,
         _section_type self = None ->
         SectionType.__get__ self = Raises (AttributeError "_section_type") self
         /\ ((forall entry entries, data_sources <> VDict (entry :: entries)) ->
             SetDataSources.__set__ data_sources self
             = Raises (AttributeError "_section_type") self))
  /\ exists self',
       __init__ value data_sources new_object
       = Raises (AttributeError "_section_type") self'
       /\ _section_type self' = None
       /\ regions_read self' = []
       /\ _processing_functions self' = None
       /\ test_data self' = None.
Proof.
  intros U. split; [|split].
  - intros self self1 E.
    rewrite (section_type_set_unrecognised value self U) in E.
    injection E as <-. reflexivity.
  - intros self N. split.
    + unfold SectionType.__get__, getattr. now rewrite N.
    + intros D. unfold SetDataSources.__set__.
      destruct data_sources as [x|items|[|entry entries]];
        try (unfold bind, SectionType.__get__, getattr; now rewrite N).
      now destruct (D entry entries).
  - eexists. split; [now apply init_unrecognised|].
    destruct data_sources as [x|items|[|entry entries]]; repeat split.
Qed.

Lemma unrecognised_name_construction_fails_witness :
  exists self',
    __init__ (env := sample_2a) annual_report VNone new_object
    = Raises (AttributeError "_section_type") self'
    /\ _section_type self' = None
    /\ regions_read self' = []
    /\ _processing_functions self' = None
    /\ test_data self' = None.
Proof.
  apply (unrecognised_name_construction_fails (env := sample_2a) annual_report VNone).
  apply annual_report_unrecognised.
Defined.

(** ** Schema resolution *)

(** C7.  A non-empty override mapping becomes the schema as it is,
    whatever the state of the object: the variant tag is not read, so the
    override also goes through when no tag was stored.  Without an override
    ([None], the default, or an empty mapping) the built-in schema of the
    stored tag is used. *)
Theorem override_schema_is_used_verbatim (value : pyval) (self : ExcelProcessor) :
  (forall entry entries,
      value = VDict (entry :: entries) ->
      SetDataSources.__set__ value self
      = Returns tt (with_data_sources (Some (entry :: entries)) self))
  /\ (value = VNone \/ value = VDict [] ->
      (_section_type self = Some "5-2A" ->
       SetDataSources.__set__ value self
       = Returns tt (with_data_sources (Some data_sources_2a) self))
      /\ (_section_type self = Some "5-2B" ->
          SetDataSources.__set__ value self
          = Returns tt (with_data_sources (Some data_sources_2b) self))).
Proof.
  split.
  - intros entry entries ->. reflexivity.
  - intros [-> | ->]; split; intros T;
      unfold SetDataSources.__set__, VNone, bind, SectionType.__get__, getattr;
      repeat (rewrite T; simpl); reflexivity.
Qed.

Lemma override_schema_is_used_verbatim_witness :
  SetDataSources.__set__ (VDict identifying_information_only) new_object
  = Returns tt (with_data_sources (Some identifying_information_only) new_object)
  /\ SetDataSources.__set__ VNone (with_section_type (Some "5-2A") new_object)
     = Returns tt (with_data_sources (Some data_sources_2a)
                                     (with_section_type (Some "5-2A") new_object))
  /\ SetDataSources.__set__ (VDict []) (with_section_type (Some "5-2B") new_object)
     = Returns tt (with_data_sources (Some data_sources_2b)
                                     (with_section_type (Some "5-2B") new_object)).
Proof.
  split; [|split].
  - apply (proj1 (override_schema_is_used_verbatim
                    (VDict identifying_information_only) new_object)
                 (SStr "identifying_information",
                  descriptor5 "YourData" 4 "E:I" 4 [(SStr "header", VNone)]) []).
    reflexivity.
  - apply (proj2 (override_schema_is_used_verbatim
                    VNone (with_section_type (Some "5-2A") new_object))).
    + left. reflexivity.
    + reflexivity.
  - apply (proj2 (override_schema_is_used_verbatim
                    (VDict []) (with_section_type (Some "5-2B") new_object))).
    + right. reflexivity.
    + reflexivity.
Defined.

(** ** The region reader *)

(** Whatever region is missing from the schema, the error is the same. *)
Lemma get_data_missing_region
      `{env : External} (region_name : string) (self : ExcelProcessor) (schema : pydict) :
  _data_sources self = Some schema ->
  dict_get (SStr region_name) schema = None ->
  _get_data region_name self
  = Raises (ASHRAE140ProcessingError region_not_found_message) self.
Proof.
  intros D G. unfold _get_data, bind, SetDataSources.__get__, getattr.
  rewrite D, G. reflexivity.
Qed.

(** C4.  With a schema for section 5-2B that leaves 'steady_state_cases'
    out, reading that region raises the processing error, and so does the
    construction of the pipeline; the message speaks of the 'Identifying
    Information' section, which is present, and does not mention the region
    that is missing. *)
Theorem missing_region_is_reported_as_identifying_information :
  _get_data (env := sample_2b) "steady_state_cases"
            (ready results5_2b "5-2B" identifying_information_only)
  = Raises (ASHRAE140ProcessingError region_not_found_message)
           (ready results5_2b "5-2B" identifying_information_only)
  /\ raised (__init__ (env := sample_2b) results5_2b
                      (VDict identifying_information_only) new_object)
     = Some (ASHRAE140ProcessingError region_not_found_message)
  /\ mentions "steady_state_cases" region_not_found_message = false
  /\ mentions "Identifying Information" region_not_found_message = true
  /\ dict_get (SStr "identifying_information") identifying_information_only <> None.
Proof.
  split; [|split; [|split; [|split]]]; try reflexivity.
  discriminate.
Qed.

(** ** What a completed construction leaves behind *)

Lemma set_data_sources_keeps_tag (value : pyval) (self self1 : ExcelProcessor) :
  SetDataSources.__set__ value self = Returns tt self1 ->
  _section_type self1 = _section_type self.
Proof.
  assert (G : forall (v : pyval),
             (section_type <- SectionType.__get__ ;;
              if String.eqb section_type "5-2A"
              then modify (with_data_sources (Some data_sources_2a))
              else
                section_type <- SectionType.__get__ ;;
                if String.eqb section_type "5-2B"
                then modify (with_data_sources (Some data_sources_2b))
                else
                  section_type <- SectionType.__get__ ;;
                  logger_error ("Error: Section (" ++ section_type
                                ++ ") is not currently supported"))%method self
             = Returns tt self1 ->
             _section_type self1 = _section_type self).
  { intros _. unfold bind, SectionType.__get__, getattr.
    destruct (_section_type self) as [tag|] eqn:T; [|discriminate].
    destruct (String.eqb tag "5-2A").
    - intros E. injection E as <-. exact T.
    - rewrite T. destruct (String.eqb tag "5-2B").
      + intros E. injection E as <-. exact T.
      + rewrite T. intros E. injection E as <-. exact T. }
  unfold SetDataSources.__set__.
  destruct value as [x|items|[|entry entries]]; try apply (G VNone).
  intros E. injection E as <-. reflexivity.
Qed.

Lemma set_processing_functions_returns
      `{env : External} (tag : string) (self self1 : ExcelProcessor) :
  tag = "5-2A" \/ tag = "5-2B" ->
  SetProcessingFunctions.__set__ tag self = Returns tt self1 ->
  exists fragments,
    _processing_functions self1 = Some fragments
    /\ NoDup (dict_keys fragments).
Proof.
  intros [-> | ->]; unfold SetProcessingFunctions.__set__, bind;
    cbn [String.eqb Ascii.eqb Bool.eqb];
    repeat match goal with
           | |- match ?c ?s with _ => _ end = _ -> _ =>
               let r := fresh "r" in
               let s' := fresh "s" in
               destruct (c s) as [r s'|? ?]; [|discriminate]
           end;
    intros E; injection E as <-;
    eexists; (split; [reflexivity|]);
    apply distinct_keys_nodup; reflexivity.
Qed.

Lemma init_returns_inv `{env : External} (value : Path) (data_sources : pyval)
      (obj : ExcelProcessor) :
  __init__ value data_sources new_object = Returns tt obj ->
  test_data obj = Some []
  /\ exists fragments,
       _processing_functions obj = Some fragments
       /\ NoDup (dict_keys fragments).
Proof.
  unfold __init__, bind, modify, getattr. cbn [file_location with_file_location].
  assert (K : forall tag s0,
             tag = "5-2A" \/ tag = "5-2B" ->
             _section_type s0 = Some tag ->
             match SetDataSources.__set__ data_sources s0 with
             | Returns _ self' =>
                 match SectionType.__get__ self' with
                 | Returns a self'0 =>
                     match SetProcessingFunctions.__set__ a self'0 with
                     | Returns _ self'1 =>
                         Returns tt
                           (with_software_release_date (Some SNone)
                              (with_software_version (Some SNone)
                                 (with_software_name (Some SNone)
                                    (with_test_data (Some []) self'1))))
                     | Raises e self'1 => Raises e self'1
                     end
                 | Raises e self'0 => Raises e self'0
                 end
             | Raises e self' => Raises e self'
             end = Returns tt obj ->
             test_data obj = Some []
             /\ exists fragments,
                  _processing_functions obj = Some fragments
                  /\ NoDup (dict_keys fragments)).
  { intros tag s0 Htag T.
    destruct (SetDataSources.__set__ data_sources s0) as [[] s1|e s1] eqn:D;
      [|discriminate].
    apply set_data_sources_keeps_tag in D. rewrite T in D.
    unfold SectionType.__get__, getattr. rewrite D.
    destruct (SetProcessingFunctions.__set__ tag s1) as [[] s2|e s2] eqn:P;
      [|discriminate].
    destruct (set_processing_functions_returns tag s1 s2 Htag P) as (fr & F & N).
    intros E. injection E as <-. split; [reflexivity|].
    exists fr. split; [exact F | exact N]. }
  unfold SectionType.__set__.
  destruct (re_match_dotstar_lit_ci "results5-2a" (name value));
    [|destruct (re_match_dotstar_lit_ci "results5-2b" (name value))].
  - apply (K "5-2A"); [now left | reflexivity].
  - apply (K "5-2B"); [now right | reflexivity].
  - unfold logger_error, modify.
    destruct (SetDataSources.__set__ data_sources _) as [[] s1|e s1] eqn:D;
      [|discriminate].
    apply set_data_sources_keeps_tag in D.
    unfold SectionType.__get__, getattr. rewrite D. discriminate.
Qed.

(** ** The coordinator *)

Lemma with_test_data_twice (v : option pydict) (self : ExcelProcessor) :
  with_test_data v (with_test_data v self) = with_test_data v self.
Proof. reflexivity. Qed.

Lemma run_returns (self : ExcelProcessor) (results fragments : pydict) :
  test_data self = Some results ->
  _processing_functions self = Some fragments ->
  run self = Returns tt (with_test_data (Some (dict_update results fragments)) self).
Proof.
  intros T P. unfold run, bind, SetProcessingFunctions.__get__, getattr, modify.
  now rewrite T, P.
Qed.

(** C5.  When the constructor has returned, [run] returns, and a second
    [run] returns the very same object: the result mapping, which holds the
    table of processing functions, is unchanged.  [run] reads no region and
    leaves the file location alone; the document is consulted by the
    constructor only, through [read_excel], so two pipelines built on one
    document with one schema hold the same table.  The same goes for [run]
    on any object that has a result mapping and a table. *)
Theorem run_is_idempotent :
  (forall (env : External) (value : Path) (data_sources : pyval)
          (obj : ExcelProcessor),
      __init__ value data_sources new_object = Returns tt obj ->
      exists obj1 fragments,
        _processing_functions obj = Some fragments
        /\ run obj = Returns tt obj1
        /\ run obj1 = Returns tt obj1
        /\ test_data obj1 = Some fragments
        /\ file_location obj1 = file_location obj
        /\ regions_read obj1 = regions_read obj)
  /\ (forall (self : ExcelProcessor) (results fragments : pydict),
         test_data self = Some results ->
         _processing_functions self = Some fragments ->
         exists self1,
           run self = Returns tt self1
           /\ run self1 = Returns tt self1
           /\ test_data self1 = Some (dict_update results fragments)
           /\ file_location self1 = file_location self
           /\ regions_read self1 = regions_read self).
Proof.
  assert (G : forall (self : ExcelProcessor) (results fragments : pydict),
             test_data self = Some results ->
             _processing_functions self = Some fragments ->
             exists self1,
               run self = Returns tt self1
               /\ run self1 = Returns tt self1
               /\ test_data self1 = Some (dict_update results fragments)
               /\ file_location self1 = file_location self
               /\ regions_read self1 = regions_read self).
  { intros self results fragments T P.
    exists (with_test_data (Some (dict_update results fragments)) self).
    split; [now apply run_returns|].
    split; [|repeat split].
    rewrite (run_returns _ (dict_update results fragments) fragments);
      [|reflexivity|exact P].
    now rewrite dict_update_idempotent, with_test_data_twice. }
  split; [|exact G].
  intros env value data_sources obj I.
  destruct (init_returns_inv value data_sources obj I) as (T & fragments & P & N).
  destruct (G obj [] fragments T P) as (obj1 & R1 & R2 & T1 & F1 & D1).
  exists obj1, fragments.
  rewrite (dict_update_empty fragments N) in T1.
  repeat split; assumption.
Qed.

Lemma run_is_idempotent_witness :
  (exists obj1 fragments,
      _processing_functions constructed_2a = Some fragments
      /\ run constructed_2a = Returns tt obj1
      /\ run obj1 = Returns tt obj1
      /\ test_data obj1 = Some fragments
      /\ file_location obj1 = file_location constructed_2a
      /\ regions_read obj1 = regions_read constructed_2a)
  /\ (exists self1,
         run (with_test_data (Some identifying_information_only) constructed_2a)
         = Returns tt self1
         /\ run self1 = Returns tt self1).
Proof.
  split.
  - apply (proj1 run_is_idempotent sample_2a results5_2a VNone constructed_2a).
    vm_compute. reflexivity.
  - destruct (proj2 run_is_idempotent
                    (with_test_data (Some identifying_information_only) constructed_2a)
                    identifying_information_only
                    (match _processing_functions constructed_2a with
                     | Some fragments => fragments
                     | None => []
                     end)
                    eq_refl eq_refl) as (self1 & R1 & R2 & _).
    exists self1. split; assumption.
Defined.

(** C2 (as amended).  [run] updates the result mapping with the table of
    processing functions, one key per region: every fragment is stored
    whole under the name of its region, a region of the table replaces what
    the mapping held under that name, and the other keys keep their value.
    After the constructor the mapping is empty, so the result of [run] is
    the table itself.  Fragments of different regions are never merged with
    one another and [run] raises nothing. *)
Theorem run_stores_each_fragment_under_its_region :
  (forall (self : ExcelProcessor) (results fragments : pydict),
      test_data self = Some results ->
      _processing_functions self = Some fragments ->
      NoDup (dict_keys fragments) ->
      run self = Returns tt (with_test_data (Some (dict_update results fragments)) self)
      /\ (forall region,
             dict_get region (dict_update results fragments)
             = match dict_get region fragments with
               | Some fragment => Some fragment
               | None => dict_get region results
               end))
  /\ (forall (env : External) (value : Path) (data_sources : pyval)
             (obj : ExcelProcessor),
         __init__ value data_sources new_object = Returns tt obj ->
         exists fragments,
           _processing_functions obj = Some fragments
           /\ run obj = Returns tt (with_test_data (Some fragments) obj)).
Proof.
  split.
  - intros self results fragments T P N. split; [now apply run_returns|].
    intros region. now rewrite dict_get_update, dict_get_rev_nodup.
  - intros env value data_sources obj I.
    destruct (init_returns_inv value data_sources obj I) as (T & fragments & P & N).
    exists fragments. split; [exact P|].
    rewrite (run_returns obj [] fragments T P).
    now rewrite (dict_update_empty fragments N).
Qed.

Lemma constructed_2a_regions :
  exists fragments,
    _processing_functions constructed_2a = Some fragments
    /\ test_data constructed_2a = Some []
    /\ dict_keys fragments
       = [SStr "identifying_information";
          SStr "conditioned_zone_loads_non_free_float";
          SStr "solar_radiation_annual_incident";
          SStr "solar_radiation_unshaded_annual_transmitted";
          SStr "solar_radiation_shaded_annual_transmitted";
          SStr "sky_temperature_output";
          SStr "hourly_annual_zone_temperature_bin_data";
          SStr "free_float_case_zone_temperatures";
          SStr "monthly_conditioned_zone_loads"].
Proof. eexists. split; [reflexivity|]. split; reflexivity. Qed.

Lemma run_stores_each_fragment_under_its_region_witness :
  (exists fragments,
      _processing_functions constructed_2a = Some fragments
      /\ run constructed_2a = Returns tt (with_test_data (Some fragments) constructed_2a))
  /\ (let self := with_test_data (Some identifying_information_only) constructed_2a in
      let fragments := match _processing_functions constructed_2a with
                       | Some fragments => fragments
                       | None => []
                       end in
      run self
      = Returns tt (with_test_data
                      (Some (dict_update identifying_information_only fragments)) self)
      /\ (forall region,
             dict_get region (dict_update identifying_information_only fragments)
             = match dict_get region fragments with
               | Some fragment => Some fragment
               | None => dict_get region identifying_information_only
               end)).
Proof.
  split.
  - apply (proj2 run_stores_each_fragment_under_its_region
                 sample_2a results5_2a VNone constructed_2a).
    vm_compute. reflexivity.
  - apply (proj1 run_stores_each_fragment_under_its_region
                 (with_test_data (Some identifying_information_only) constructed_2a)
                 identifying_information_only).
    + reflexivity.
    + reflexivity.
    + apply distinct_keys_nodup. vm_compute. reflexivity.
Defined.

(** C2 (as stated) fails: in the document of [overlapping_2a] the unshaded
    and the shaded fragment set the key path 600 / Surface / South / kWh/m2
    to different values.  Construction and [run] return all the same; the
    two values sit side by side under the names of their regions, and the
    result mapping has no entry for case 600 at its top level. *)
Lemma run_raises_no_merge_conflict :
  exists self results,
    (__init__ (env := overlapping_2a) results5_2a VNone ;; run)%method new_object
    = Returns tt self
    /\ test_data self = Some results
    /\ leaf_at [SStr "solar_radiation_unshaded_annual_transmitted";
                SStr "600"; SStr "Surface"; SStr "South"; SStr "kWh/m2"]
               (VDict results) = Some (F 9460 10)
    /\ leaf_at [SStr "solar_radiation_shaded_annual_transmitted";
                SStr "600"; SStr "Surface"; SStr "South"; SStr "kWh/m2"]
               (VDict results) = Some (F 7560 10)
    /\ F 9460 10 <> F 7560 10
    /\ dict_get (SStr "600") results = None.
Proof.
  eexists. eexists.
  split; [vm_compute; reflexivity|].
  split; [reflexivity|].
  repeat split; try reflexivity.
  discriminate.
Qed.

(** ** The bin table *)

Lemma combine_map_both {A B C : Type} (f : A -> B) (g : A -> C) (l : list A) :
  combine (map f l) (map g l) = map (fun x => (f x, g x)) l.
Proof. induction l as [|x l IH]; simpl; congruence. Qed.

Lemma temperature_bin_loop `{env : External} (cells : list (scalar * scalar)) :
  forall (index : list Z) (bins : pydict),
    List.length index = List.length cells ->
    for_each temperature_bin_row
      (combine index
         (map (combine [SStr "temperature_bin_c"; SStr "number_of_hours"])
              (map (fun c => [fst c; snd c]) cells)))
      bins
    = match cast_bin_rows cells with
      | inr ints =>
          inr (dict_update bins
                 (map (fun x => (SInt (fst x), hours_entry (snd x))) ints))
      | inl e => inl e
      end.
Proof.
  induction cells as [|[b h] cells IH]; intros index bins L.
  - destruct index; [reflexivity | discriminate].
  - destruct index as [|i index]; [discriminate|].
    injection L as L. simpl.
    unfold temperature_bin_row, cast_bin_row, bind_sum. simpl.
    destruct (py_int b) as [e|bin]; [reflexivity|].
    destruct (py_int h) as [e|hours]; [reflexivity|].
    change (dict_update bins
              (dict_lit [(SInt bin,
                          VDict (dict_lit [(SStr "number_of_hours", VInt hours)]))]))
      with (dict_set (SInt bin) (hours_entry hours) bins).
    rewrite IH by assumption.
    destruct (cast_bin_rows cells); reflexivity.
Qed.

Lemma bin_data_of_frame `{env : External} (df : DataFrame)
      (cells : list (scalar * scalar)) :
  List.length (df_columns df) = 2%nat ->
  List.length (df_index df) = List.length cells ->
  df_rows df = map (fun c => [fst c; snd c]) cells ->
  hourly_annual_zone_temperature_bin_data_of df
  = match cast_bin_rows cells with
    | inr ints =>
        inr (VDict
               [(SStr "900FF",
                 VDict
                   [(SStr "temperature_bin_c",
                     VDict (dict_lit
                              (map (fun x => (SInt (fst x), hours_entry (snd x)))
                                   ints)))])])
    | inl e => inl e
    end.
Proof.
  intros C I R.
  unfold hourly_annual_zone_temperature_bin_data_of, set_columns, bind_sum.
  rewrite C. simpl. unfold iterrows. simpl. rewrite R.
  rewrite temperature_bin_loop by assumption.
  destruct (cast_bin_rows cells); reflexivity.
Qed.

(** C3 (as amended).  The bin extractor passes both cells of every row
    through [int], the bin first, and stores the results as
    {'900FF': {'temperature_bin_c': {bin: {'number_of_hours': hours}}}},
    a later row replacing an earlier one with the same bin.  [int] keeps an
    integer, cuts the fraction of a float off toward zero without any
    failure, and raises [ValueError] on an empty cell ([nan]) and on text
    that is not an integer literal (or is one with more digits than the
    interpreter converts); the first such failure ends the extractor.  No
    cleansing rule is involved. *)
Theorem bin_rows_are_cast_with_int
        `{env : External} (self self1 : ExcelProcessor) (df : DataFrame)
        (cells : list (scalar * scalar)) :
  _get_data "annual_hourly_zone_temperature_bin_data" self = Returns df self1 ->
  List.length (df_columns df) = 2%nat ->
  List.length (df_index df) = List.length cells ->
  df_rows df = map (fun c => [fst c; snd c]) cells ->
  _extract_hourly_annual_zone_temperature_bin_data self
  = match cast_bin_rows cells with
    | inr ints =>
        Returns
          (VDict
             [(SStr "900FF",
               VDict
                 [(SStr "temperature_bin_c",
                   VDict (dict_lit
                            (map (fun x => (SInt (fst x), hours_entry (snd x)))
                                 ints)))])])
          self1
    | inl e => Raises e self1
    end
  /\ (forall z, py_int (SInt z) = inr z)
  /\ (forall q, py_int (SFloat q) = inr (Z.quot (Qnum q) (Z.pos (Qden q))))
  /\ py_int SNaN = inl ValueError
  /\ (forall s, int_literal s = None -> py_int (SStr s) = inl ValueError)
  /\ (forall s, int_of_text s = None -> py_int (SStr s) = inl ValueError).
Proof.
  intros G C I R. split; [|repeat split].
  - unfold _extract_hourly_annual_zone_temperature_bin_data, bind.
    rewrite G, (bin_data_of_frame df cells C I R).
    destruct (cast_bin_rows cells); reflexivity.
  - intros s N. unfold py_int, int_of_text.
    destruct int_max_str_digits as [limit|]; [destruct (Nat.ltb limit _)|];
      try reflexivity; now rewrite N.
  - intros s N. simpl. now rewrite N.
Qed.

Lemma bin_rows_are_cast_with_int_witness :
  let self := ready results5_2a "5-2A" data_sources_2a in
  _extract_hourly_annual_zone_temperature_bin_data (env := sample_2a) self
  = Returns
      (VDict
         [(SStr "900FF",
           VDict
             [(SStr "temperature_bin_c",
               VDict [(SInt (-5), hours_entry 10); (SInt 0, hours_entry 20)])])])
      (with_regions_read ["annual_hourly_zone_temperature_bin_data"] self).
Proof.
  intros self.
  apply (proj1 (bin_rows_are_cast_with_int
                  (env := sample_2a) self
                  (with_regions_read ["annual_hourly_zone_temperature_bin_data"] self)
                  (frame [[SInt (-5); SInt 10]; [SInt 0; F 200 10]])
                  [(SInt (-5), SInt 10); (SInt 0, F 200 10)]
                  eq_refl eq_refl eq_refl eq_refl)).
Defined.

(** C3 (as stated) fails: with 20.7 hours in bin 0 and 3 hours in bin 2.5
    the extractor returns, having stored 20 hours for bin 0 and the 3 hours
    under bin 2. *)
Lemma fractional_bin_cells_are_truncated :
  let self := ready results5_2a "5-2A" data_sources_2a in
  _extract_hourly_annual_zone_temperature_bin_data (env := fractional_bins_2a) self
  = Returns
      (VDict
         [(SStr "900FF",
           VDict
             [(SStr "temperature_bin_c",
               VDict [(SInt 0, hours_entry 20); (SInt 2, hours_entry 3)])])])
      (with_regions_read ["annual_hourly_zone_temperature_bin_data"] self).
Proof. reflexivity. Qed.

(** ** The transmitted-radiation tables *)

Lemma split_on_lacks (sep : ascii) (s : string) :
  lacks sep s -> split_on sep s = [s].
Proof.
  induction s as [|c s IH]; simpl; [reflexivity|].
  intros [N L]. rewrite (proj2 (Ascii.eqb_neq c sep) N), IH by assumption.
  reflexivity.
Qed.

Lemma split_on_first (sep : ascii) (a b : string) :
  lacks sep a -> split_on sep (a ++ String sep b) = a :: split_on sep b.
Proof.
  induction a as [|c a IH]; simpl.
  - intros _. now rewrite Ascii.eqb_refl.
  - intros [N L]. rewrite (proj2 (Ascii.eqb_neq c sep) N), IH by assumption.
    reflexivity.
Qed.

Lemma split_case_and_surface (case surface : string) :
  lacks "/"%char case -> lacks "/"%char surface ->
  split_on "/"%char (case ++ "/" ++ surface) = [case; surface].
Proof.
  intros C S.
  change (case ++ "/" ++ surface) with (case ++ String "/"%char surface).
  now rewrite split_on_first, split_on_lacks.
Qed.

Lemma str_split_expand_pairs (cells : list (string * string * scalar)) :
  cells <> [] ->
  Forall (fun x => lacks "/"%char (fst (fst x)) /\ lacks "/"%char (snd (fst x))) cells ->
  str_split_expand "/"%char (map (fun x => nth 0 (combined_row x) SNaN) cells)
  = inr (2%nat, map (fun x => [SStr (fst (fst x)); SStr (snd (fst x))]) cells).
Proof.
  intros NE F. unfold str_split_expand. rewrite map_map. cbn [nth combined_row].
  assert (P : map (fun x : string * string * scalar =>
                     Some (split_on "/"%char (fst (fst x) ++ "/" ++ snd (fst x)))) cells
              = map (fun x => Some [fst (fst x); snd (fst x)]) cells).
  { apply map_ext_in. intros x I.
    rewrite Forall_forall in F. destruct (F x I) as [C S].
    now rewrite split_case_and_surface. }
  rewrite P. clear P F.
  assert (W : forall l : list (string * string * scalar),
             fold_right (fun (p : option (list string)) (w : nat) =>
                           match p with
                           | Some l0 => Nat.max (List.length l0) w
                           | None => w
                           end) 0%nat
                        (map (fun x => Some [fst (fst x); snd (fst x)]) l)
             = match l with [] => 0%nat | _ => 2%nat end).
  { induction l as [|y l IHl]; [reflexivity|].
    cbn [map fold_right]. rewrite IHl. now destruct l. }
  rewrite W.
  destruct cells as [|x cells]; [congruence|]. clear NE.
  cbn [map existsb orb]. rewrite map_map. reflexivity.
Qed.

Lemma split_case_surface_rows (df : DataFrame) (cells : list (string * string * scalar)) :
  cells <> [] ->
  Forall (fun x => lacks "/"%char (fst (fst x)) /\ lacks "/"%char (snd (fst x))) cells ->
  List.length (df_columns df) = 2%nat ->
  df_rows df = map combined_row cells ->
  split_case_surface df
  = inr {| df_columns := split_columns;
           df_index := df_index df;
           df_rows := map split_row cells |}.
Proof.
  intros NE F C R.
  unfold split_case_surface, set_columns, bind_sum. rewrite C.
  cbn [List.length map Nat.eqb].
  unfold column_values.
  cbn [df_columns df_rows df_index existsb].
  rewrite key_eqb_refl. cbn [orb]. rewrite R, map_map.
  rewrite (map_ext _ (fun x => nth 0 (combined_row x) SNaN))
    by (intros x; unfold combined_row; cbn [combine dict_get nth];
        now rewrite key_eqb_refl).
  rewrite (str_split_expand_pairs cells NE F).
  unfold assign_two_columns. cbn [fst snd Nat.eqb].
  unfold assign_column, drop_column. cbn [df_columns df_rows df_index].
  rewrite !map_map.
  rewrite !combine_map_both, !map_map.
  rewrite combine_map_both, map_map.
  match goal with
  | |- (if ?b then _ else _) = _ => replace b with true by reflexivity
  end.
  reflexivity.
Qed.

Lemma transmitted_loop (rows : list (scalar * scalar * scalar)) :
  forall (index : list Z) (data_d : pydict),
    List.length index = List.length rows ->
    for_each transmitted_row_entry
      (combine index (map (combine split_columns) (map cleansed_row rows)))
      data_d
    = inr (dict_update data_d (map case_entry rows)).
Proof.
  induction rows as [|[[case surface] value] rows IH]; intros index data_d L.
  - destruct index; [reflexivity | discriminate].
  - destruct index as [|i index]; [discriminate|].
    injection L as L.
    change (for_each transmitted_row_entry
      (combine (i :: index) (map (combine split_columns) (map cleansed_row ((case, surface, value) :: rows))))
      data_d) with
     (for_each transmitted_row_entry
      (combine index (map (combine split_columns) (map cleansed_row rows)))
      (dict_set case (surface_entry surface value) data_d)).
    now rewrite IH.
Qed.

Lemma dict_lit_last_entry (rows before after : list (scalar * scalar * scalar))
      (r : scalar * scalar * scalar) :
  rows = (before ++ r :: after)%list ->
  (forall r', In r' after -> fst (fst r') <> fst (fst r)) ->
  dict_get (fst (fst r)) (dict_lit (map case_entry rows))
  = Some (surface_entry (snd (fst r)) (snd r)).
Proof.
  intros -> Later. unfold dict_lit.
  rewrite dict_get_update, map_app, rev_app_distr. simpl.
  rewrite <- app_assoc, dict_get_app.
  assert (N : dict_get (fst (fst r)) (rev (map case_entry after)) = None).
  { apply dict_get_rev_none, dict_get_none_iff.
    unfold dict_keys. rewrite map_map. intros I.
    apply in_map_iff in I. destruct I as (r' & E & I).
    now apply (Later r' I). }
  rewrite N. simpl. now rewrite key_eqb_refl.
Qed.

(** C8 (as amended).  The combined column is split on '/' into a case and
    a surface column.  The fragment is an empty mapping updated, row by
    cleansed row (case, surface, value), with the one-entry mapping
    {case: {'Surface': {surface: {'kWh/m2': value}}}}: the entry of a row
    is the fragment's entry for its case unless a later row has the same
    case, and then the later row's entry has replaced it.  Both transmitted
    extractors hand this fragment back. *)
Theorem transmitted_rows_are_split_and_keyed_by_case
        `{env : External} (df cleansed : DataFrame)
        (cells : list (string * string * scalar))
        (rows : list (scalar * scalar * scalar)) :
  cells <> [] ->
  Forall (fun x => lacks "/"%char (fst (fst x)) /\ lacks "/"%char (snd (fst x))) cells ->
  List.length (df_columns df) = 2%nat ->
  df_rows df = map combined_row cells ->
  cleanse_solar_radiation_annual (Some "Case")
    {| df_columns := split_columns;
       df_index := df_index df;
       df_rows := map split_row cells |} = inr cleansed ->
  df_columns cleansed = split_columns ->
  df_rows cleansed = map cleansed_row rows ->
  List.length (df_index cleansed) = List.length rows ->
  split_case_surface df
  = inr {| df_columns := split_columns;
           df_index := df_index df;
           df_rows := map split_row cells |}
  /\ solar_radiation_annual_transmitted_of df
     = inr (VDict (dict_lit (map case_entry rows)))
  /\ (forall self self1,
         _get_data "solar_radiation_unshaded_annual_transmitted" self
         = Returns df self1 ->
         _extract_solar_radiation_unshaded_annual_transmitted self
         = Returns (VDict (dict_lit (map case_entry rows))) self1)
  /\ (forall self self1,
         _get_data "solar_radiation_shaded_annual_transmitted" self
         = Returns df self1 ->
         _extract_solar_radiation_shaded_annual_transmitted self
         = Returns (VDict (dict_lit (map case_entry rows))) self1)
  /\ (forall before r after,
         rows = (before ++ r :: after)%list ->
         (forall r', In r' after -> fst (fst r') <> fst (fst r)) ->
         dict_get (fst (fst r)) (dict_lit (map case_entry rows))
         = Some (surface_entry (snd (fst r)) (snd r))).
Proof.
  intros NE F C R CL CC CR CI.
  assert (S := split_case_surface_rows df cells NE F C R).
  assert (T : solar_radiation_annual_transmitted_of df
              = inr (VDict (dict_lit (map case_entry rows)))).
  { unfold solar_radiation_annual_transmitted_of, bind_sum.
    rewrite S, CL. unfold iterrows. rewrite CC, CR.
    now rewrite transmitted_loop. }
  split; [exact S|]. split; [exact T|]. split; [|split].
  - intros self self1 G.
    unfold _extract_solar_radiation_unshaded_annual_transmitted, bind.
    now rewrite G, T.
  - intros self self1 G.
    unfold _extract_solar_radiation_shaded_annual_transmitted, bind.
    now rewrite G, T.
  - intros before r after. apply dict_lit_last_entry.
Qed.

Lemma transmitted_rows_are_split_and_keyed_by_case_witness :
  solar_radiation_annual_transmitted_of (env := sample_2a)
    (frame [[SStr "600/North"; F 125 10]])
  = inr (VDict
           [(SStr "600",
             VDict [(SStr "Surface",
                     VDict [(SStr "North",
                             VDict [(SStr "kWh/m2", VS (F 125 10))])])])]).
Proof.
  apply (proj1 (proj2 (transmitted_rows_are_split_and_keyed_by_case
                         (env := sample_2a)
                         (frame [[SStr "600/North"; F 125 10]])
                         {| df_columns := split_columns;
                            df_index := [0];
                            df_rows := [[F 125 10; SStr "600"; SStr "North"]] |}
                         [("600", "North", F 125 10)]
                         [(SStr "600", SStr "North", F 125 10)]
                         ltac:(discriminate)
                         ltac:(repeat constructor; discriminate)
                         eq_refl eq_refl eq_refl eq_refl eq_refl eq_refl))).
Defined.

(** C8 (as stated) fails: of the rows 600/West and 600/South only the
    second is left in the fragment; the entry of the first is gone. *)
Lemma earlier_row_of_same_case_is_replaced :
  solar_radiation_annual_transmitted_of (env := sample_2a)
    (frame [[SStr "600/West"; F 10 10]; [SStr "600/South"; F 20 10]])
  = inr (VDict [(SStr "600", surface_entry (SStr "South") (F 20 10))])
  /\ dict_get (SStr "600")
              [(SStr "600", surface_entry (SStr "South") (F 20 10))]
     <> Some (surface_entry (SStr "West") (F 10 10)).
Proof. split; [reflexivity | discriminate]. Qed.

(** ** Identifying information, section 5-2A *)



(** C9.  The extractor logs and goes on when a label is not the expected
    one, but only when the label cell is text.  An empty first label cell,
    which the reader delivers as [nan], does not start with 'Software'
    either; on it the extractor raises [TypeError], as the pattern is
    matched against a cell that is not text, no field is set, nothing is
    logged, and the construction of the pipeline fails with it. *)
Theorem blank_label_cell_raises :
  let self := ready results5_2a "5-2A" data_sources_2a in
  _extract_identifying_information_2a (env := blank_label_2a) self
  = Raises TypeError (with_regions_read ["identifying_information"] self)
  /\ raised (__init__ (env := blank_label_2a) results5_2a VNone new_object)
     = Some TypeError.
Proof. split; reflexivity. Qed.

(** With the mislabelled document the pipeline completes: the result
    mapping has its nine regions, and the one error is in the log. *)
Lemma mislabelled_document_still_runs :
  exists self results,
    (__init__ (env := mislabelled_2a) results5_2a VNone ;; run)%method new_object
    = Returns tt self
    /\ test_data self = Some results
    /\ dict_keys results
       = [SStr "identifying_information";
          SStr "conditioned_zone_loads_non_free_float";
          SStr "solar_radiation_annual_incident";
          SStr "solar_radiation_unshaded_annual_transmitted";
          SStr "solar_radiation_shaded_annual_transmitted";
          SStr "sky_temperature_output";
          SStr "hourly_annual_zone_temperature_bin_data";
          SStr "free_float_case_zone_temperatures";
          SStr "monthly_conditioned_zone_loads"]
    /\ logger self = ["Software name information not found"]
    /\ leaf_at [SStr "identifying_information"; SStr "software_name"]
               (VDict results) = Some SNone.
Proof.
  eexists. eexists.
  split; [vm_compute; reflexivity|].
  split; [reflexivity|].
  repeat split; reflexivity.
Qed.

(** ** What the extractors touch *)











(** ** The constructor, step by step *)




(** ** The constructed pipeline *)









(** ** Edge behaviour of the extractors *)











(** ** The descriptors on values they do not support *)





(** ** What the other extractors build *)























